(** * AABBTree: a shallow embedding of [common/src/AABBTree.h]

    The C++ class template [AABBTree<T,S,U,EQ>] is embedded as pure functions
    over an inductive node type.

    - A [Node*] is a value of type [Node]; the constructor [nullptr] is the
      null pointer.  Every node has exactly one owner in the source, so an
      owning pointer and the subtree it points to are the same thing here.
    - Dereferencing a null pointer is undefined behaviour in the source; the
      embedding stops with the outcome [NullDeref].
    - [assert] depends on the build: with [NDEBUG = true] it is compiled out,
      with [NDEBUG = false] a failing assertion stops with [AssertFail].
    - [insert] and [remove] call each other through [rebalance] on children
      that were just rebuilt, so they are defined by recursion on a fuel
      counter; [OutOfFuel] is the outcome of a run that was cut short.
    - [size_t] heights are values of [N]; [updateHeight] wraps at 64 bits.
    - [delete] and leaked nodes have no observable effect on the functions
      embedded here and are only mentioned in comments. *)

From Stdlib Require DecimalString.
From Stdlib Require Import String Ascii NArith ZArith Bool List Lia.
Import ListNotations.

(** ** Outcomes of a call *)

Inductive Outcome (A : Type) : Type :=
| Ok (a : A)
| NullDeref
| AssertFail
| OutOfFuel.

Arguments Ok {A} a.
Arguments NullDeref {A}.
Arguments AssertFail {A}.
Arguments OutOfFuel {A}.

Definition bind {A B : Type} (m : Outcome A) (k : A -> Outcome B) : Outcome B :=
  match m with
  | Ok a => k a
  | NullDeref => NullDeref
  | AssertFail => AssertFail
  | OutOfFuel => OutOfFuel
  end.

Notation "x <- m ;; k" := (bind m (fun x => k))
  (at level 61, m at next level, right associativity).
Notation "' p <- m ;; k" := (bind m (fun p => k))
  (at level 61, p pattern, m at next level, right associativity).

(** A call that stopped on undefined behaviour or on a failed assertion. *)
Definition faulted {A : Type} (o : Outcome A) : bool :=
  match o with
  | NullDeref | AssertFail => true
  | _ => false
  end.

(** ** The bounding box type (consumed, [BBox.h] is not part of the sources) *)

(** Modelled from the spec: the box value type [BBox<T,S>] with the three
    operations the tree uses and the NaN box of [AABBTree::bounds]; [T] is the
    numeric type of [volume()], with its subtraction and its [<=]. *)
Class BBoxOps : Type := {
  Box : Type;
  T : Type;
  contains : Box -> Box -> bool;
  mergedWith : Box -> Box -> Box;
  volume : Box -> T;
  Tsub : T -> T -> T;
  Tleb : T -> T -> bool;
  EmptyBox : Box
}.

(** [size_t] arithmetic. *)
Definition size_t_modulus : N := 2 ^ 64.
Definition wrap_size_t (n : N) : N := (n mod size_t_modulus)%N.

(** [static_cast<int>] of a [size_t]. *)
Definition static_cast_int (n : N) : Z :=
  let m := (Z.of_N n mod 2 ^ 32)%Z in
  if (m <? 2 ^ 31)%Z then m else (m - 2 ^ 32)%Z.

Section Tree.

Context {BB : BBoxOps}.
(** The payload type and the equality functor [EQ]. *)
Variable U : Type.
Variable EQ : U -> U -> bool.
(** [true] when assertions are compiled out. *)
Variable NDEBUG : bool.

Definition assert (cond : Outcome bool) : Outcome unit :=
  if NDEBUG then Ok tt
  else c <- cond ;; if (c : bool) then Ok tt else AssertFail.

(** ** Nodes *)

Inductive Node : Type :=
| nullptr
| Leaf (m_bounds : Box) (m_data : U)
| InnerNode (m_bounds : Box) (m_left m_right : Node) (m_height : N).

(** [Node::bounds] *)
Definition bounds (n : Node) : Outcome Box :=
  match n with
  | nullptr => NullDeref
  | Leaf b _ => Ok b
  | InnerNode b _ _ _ => Ok b
  end.

(** [Leaf::height] and [InnerNode::height] *)
Definition height (n : Node) : Outcome N :=
  match n with
  | nullptr => NullDeref
  | Leaf _ _ => Ok 1%N
  | InnerNode _ _ _ h => Ok h
  end.

(** [Leaf::balance] and [InnerNode::balance] *)
Definition balance (n : Node) : Outcome Z :=
  match n with
  | nullptr => NullDeref
  | Leaf _ _ => Ok 0%Z
  | InnerNode _ l r _ =>
      lh <- height l ;;
      rh <- height r ;;
      Ok (static_cast_int rh - static_cast_int lh)%Z
  end.

(** [InnerNode::updateBounds], on the fields of the node *)
Definition updateBounds (n : Node) : Outcome Node :=
  match n with
  | InnerNode _ l r h =>
      lb <- bounds l ;;
      rb <- bounds r ;;
      Ok (InnerNode (mergedWith lb rb) l r h)
  | _ => Ok n
  end.

(** [InnerNode::updateHeight] *)
Definition updateHeight (n : Node) : Outcome Node :=
  match n with
  | InnerNode b l r _ =>
      lh <- height l ;;
      rh <- height r ;;
      let h := wrap_size_t (N.max lh rh + 1) in
      _ <- assert (Ok (0 <? h)%N) ;;
      Ok (InnerNode b l r h)
  | _ => Ok n
  end.

(** The constructor [InnerNode(left, right)] *)
Definition new_InnerNode (left right : Node) : Outcome Node :=
  lb <- bounds left ;;
  rb <- bounds right ;;
  _ <- assert (Ok (negb match left with nullptr => true | _ => false end)) ;;
  _ <- assert (Ok (negb match right with nullptr => true | _ => false end)) ;;
  updateHeight (InnerNode (mergedWith lb rb) left right 0%N).

(** ** The least-increaser rule *)

(** Which of the two references [selectLeastIncreaser] returns. *)
Inductive Choice : Type := Node1 | Node2.

Definition selectLeastIncreaserBox (b1 b2 bnds : Box) : Choice :=
  let new1 := mergedWith b1 bnds in
  let new2 := mergedWith b2 bnds in
  let vol1 := volume b1 in
  let vol2 := volume b2 in
  let diff1 := Tsub (volume new1) vol1 in
  let diff2 := Tsub (volume new2) vol2 in
  if Tleb diff1 diff2 then Node1 else Node2.

(** [InnerNode::selectLeastIncreaser] at [TT = Node] *)
Definition selectLeastIncreaser (node1 node2 : Node) (bnds : Box) : Outcome Choice :=
  b1 <- bounds node1 ;;
  b2 <- bounds node2 ;;
  Ok (selectLeastIncreaserBox b1 b2 bnds).

(** [findRebalanceCandidate]: the leaf is returned as its bounds and data,
    the two things [rebalance] copies out of it. *)
Fixpoint findRebalanceCandidate (n : Node) (bnds : Box) : Outcome (Box * U) :=
  match n with
  | nullptr => NullDeref
  | Leaf b d => Ok (b, d)
  | InnerNode _ l r _ =>
      leftCandidate <- findRebalanceCandidate l bnds ;;
      rightCandidate <- findRebalanceCandidate r bnds ;;
      match selectLeastIncreaserBox (fst leftCandidate) (fst rightCandidate) bnds with
      | Node1 => Ok leftCandidate
      | Node2 => Ok rightCandidate
      end
  end.

(** ** Pointers returned by [Node::remove]

    [remove] returns a pointer that the callers compare with the receiver and
    with null.  [This] is the receiver itself; [Other p] is any other pointer:
    a child detached from the receiver, or null ([Other nullptr]). *)
Inductive Ret : Type :=
| This
| Other (p : Node).

Definition is_null (r : Ret) : bool :=
  match r with
  | Other nullptr => true
  | _ => false
  end.

(** The node a slot holds after [slot = receiver->remove(..)]; [self] is the
    receiver after the call. *)
Definition deref (self : Node) (r : Ret) : Node :=
  match r with
  | This => self
  | Other p => p
  end.

(** The two child slots of an inner node, as [doRemove] and [rebalance]
    receive them by reference. *)
Inductive Slot : Type := Left | Right.

Definition get (s : Slot) (n : Node) : Node :=
  match n, s with
  | InnerNode _ l _ _, Left => l
  | InnerNode _ _ r _, Right => r
  | _, _ => nullptr
  end.

Definition set (s : Slot) (n : Node) (c : Node) : Node :=
  match n, s with
  | InnerNode b _ r h, Left => InnerNode b c r h
  | InnerNode b l _ h, Right => InnerNode b l c h
  | _, _ => n
  end.

Definition other (s : Slot) : Slot :=
  match s with Left => Right | Right => Left end.

Section Body.

(** One unfolding of the mutually recursive member functions, over the
    recursive calls [insert_rec] and [remove_rec]. *)
Variable insert_rec : Node -> Box -> U -> Outcome Node.
Variable remove_rec : Node -> Box -> U -> Outcome (Node * Ret).

(** [InnerNode::rebalance(Node*& higher, Node*& lower)] *)
Definition rebalance2 (higher lower : Slot) (n : Node) : Outcome Node :=
  lowerBounds <- bounds (get lower n) ;;
  toRemove <- findRebalanceCandidate (get higher n) lowerBounds ;;
  let bnds := fst toRemove in
  let data := snd toRemove in
  ' (self, r) <- remove_rec (get higher n) bnds data ;;
  let n := set higher n (deref self r) in
  newLower <- insert_rec (get lower n) bnds data ;;
  Ok (set lower n newLower).

(** [InnerNode::rebalance()] *)
Definition rebalance (n : Node) : Outcome Node :=
  lh <- height (get Left n) ;;
  rh <- height (get Right n) ;;
  if ((rh <? lh) && (1 <? lh - rh))%N then rebalance2 Left Right n
  else if ((lh <? rh) && (1 <? rh - lh))%N then rebalance2 Right Left n
  else Ok n.

(** [InnerNode::insert] *)
Definition InnerNode_insert (n : Node) (bnds : Box) (data : U) : Outcome Node :=
  c <- selectLeastIncreaser (get Left n) (get Right n) bnds ;;
  let subtree := match c with Node1 => Left | Node2 => Right end in
  newSubtree <- insert_rec (get subtree n) bnds data ;;
  let n := set subtree n newSubtree in
  n <- updateBounds n ;;
  n <- updateHeight n ;;
  rebalance n.

(** [InnerNode::doRemove]; the result is the receiver after the call and the
    returned pointer. *)
Definition doRemove (n : Node) (bnds : Box) (data : U) (child sibling : Slot)
  : Outcome (Node * Ret) :=
  childBounds <- bounds (get child n) ;;
  if contains childBounds bnds then
    ' (self, newChild) <- remove_rec (get child n) bnds data ;;
    if is_null newChild then
      Ok (set sibling (set child n self) nullptr, Other (get sibling n))
    else
      match newChild with
      | Other p =>
          let n := set child n p in
          n <- updateBounds n ;;
          n <- updateHeight n ;;
          n <- rebalance n ;;
          Ok (n, This)
      | This =>
          Ok (set child n self, Other nullptr)
      end
  else Ok (n, Other nullptr).

(** [InnerNode::remove] *)
Definition InnerNode_remove (n : Node) (bnds : Box) (data : U) : Outcome (Node * Ret) :=
  ' (n, result) <- doRemove n bnds data Left Right ;;
  if negb (is_null result) then Ok (n, result)
  else doRemove n bnds data Right Left.

End Body.

(** [Leaf::insert] *)
Definition Leaf_insert (n : Node) (bnds : Box) (data : U) : Outcome Node :=
  new_InnerNode n (Leaf bnds data).

(** [Leaf::remove] *)
Definition Leaf_remove (n : Node) (m_data : U) (data : U) : Outcome (Node * Ret) :=
  if EQ data m_data then Ok (n, Other nullptr) else Ok (n, This).

(** The virtual calls [n->insert(bounds, data)] and [n->remove(bounds, data)] *)
Fixpoint Node_insert (fuel : nat) (n : Node) (bnds : Box) (data : U) {struct fuel}
  : Outcome Node :=
  match fuel with
  | O => OutOfFuel
  | S fuel =>
      match n with
      | nullptr => NullDeref
      | Leaf _ _ => Leaf_insert n bnds data
      | InnerNode _ _ _ _ =>
          InnerNode_insert (Node_insert fuel) (Node_remove fuel) n bnds data
      end
  end
with Node_remove (fuel : nat) (n : Node) (bnds : Box) (data : U) {struct fuel}
  : Outcome (Node * Ret) :=
  match fuel with
  | O => OutOfFuel
  | S fuel =>
      match n with
      | nullptr => NullDeref
      | Leaf _ m_data => Leaf_remove n m_data data
      | InnerNode _ _ _ _ =>
          InnerNode_remove (Node_insert fuel) (Node_remove fuel) n bnds data
      end
  end.

(** The volume increase that merging [bnds] into a child's bounds causes. *)
Definition volume_increase (childBounds bnds : Box) : T :=
  Tsub (volume (mergedWith childBounds bnds)) (volume childBounds).

(** The strict part of [<=] on [T]: [x <= y] and not [y <= x]. *)
Definition Tltb (x y : T) : bool := Tleb x y && negb (Tleb y x).

(** An insert at the inner node [n] that recurses into the child in slot [s]:
    the child is replaced by what its [insert] returns, then the node updates
    its bounds and height and rebalances. *)
Definition insert_into (fuel : nat) (s : Slot) (n : Node) (bnds : Box) (data : U)
  : Outcome Node :=
  newSubtree <- Node_insert fuel (get s n) bnds data ;;
  n <- updateBounds (set s n newSubtree) ;;
  n <- updateHeight n ;;
  rebalance (Node_insert fuel) (Node_remove fuel) n.

(** ** The tree *)

Record AABBTree : Type := mkAABBTree { m_root : Node }.

(** [AABBTree::AABBTree] *)
Definition new_AABBTree : AABBTree := mkAABBTree nullptr.

(** [AABBTree::empty] *)
Definition empty (t : AABBTree) : bool :=
  match m_root t with
  | nullptr => true
  | _ => false
  end.

(** [std::abs(m_root->balance()) < 2] *)
Definition root_balanced (t : AABBTree) : Outcome bool :=
  b <- balance (m_root t) ;; Ok (Z.abs b <? 2)%Z.

(** [AABBTree::insert] *)
Definition insert (fuel : nat) (t : AABBTree) (bnds : Box) (data : U) : Outcome AABBTree :=
  t <- (if empty t then Ok (mkAABBTree (Leaf bnds data))
        else r <- Node_insert fuel (m_root t) bnds data ;; Ok (mkAABBTree r)) ;;
  _ <- assert (root_balanced t) ;;
  Ok t.

(** [AABBTree::remove]; the result is the tree after the call and the
    returned boolean. *)
Definition remove (fuel : nat) (t : AABBTree) (bnds : Box) (data : U)
  : Outcome (AABBTree * bool) :=
  if empty t then Ok (t, false)
  else
    rootBounds <- bounds (m_root t) ;;
    if contains rootBounds bnds then
      ' (self, newRoot) <- Node_remove fuel (m_root t) bnds data ;;
      let t := mkAABBTree (deref self newRoot) in
      _ <- assert (if empty t then Ok true else root_balanced t) ;;
      Ok (t, true)
    else Ok (t, false).

(** [AABBTree::height] *)
Definition tree_height (t : AABBTree) : Outcome N :=
  if empty t then Ok 0%N else height (m_root t).

(** [AABBTree::bounds] *)
Definition tree_bounds (t : AABBTree) : Outcome Box :=
  _ <- assert (Ok (negb (empty t))) ;;
  if empty t then Ok EmptyBox else bounds (m_root t).


(** ** Invariants of the data model *)

(** I1: the bounds of every inner node is the merge of its children's bounds. *)
Fixpoint bounds_correct (n : Node) : Prop :=
  match n with
  | InnerNode b l r _ =>
      match bounds l, bounds r with
      | Ok lb, Ok rb => b = mergedWith lb rb
      | _, _ => False
      end /\ bounds_correct l /\ bounds_correct r
  | _ => True
  end.

(** I2: the cached height of every inner node is one more than the larger of
    its children's heights. *)
Fixpoint height_correct (n : Node) : Prop :=
  match n with
  | InnerNode _ l r h =>
      match height l, height r with
      | Ok lh, Ok rh => h = (1 + N.max lh rh)%N
      | _, _ => False
      end /\ height_correct l /\ height_correct r
  | _ => True
  end.

(** I3: the balance of every inner node has magnitude at most one. *)
Fixpoint balanced (n : Node) : Prop :=
  match n with
  | InnerNode _ l r _ =>
      match balance n with
      | Ok z => (Z.abs z <= 1)%Z
      | _ => False
      end /\ balanced l /\ balanced r
  | _ => True
  end.

(** The leaves of a subtree, left to right. *)
Fixpoint leaves (n : Node) : list (Box * U) :=
  match n with
  | nullptr => []
  | Leaf b d => [(b, d)]
  | InnerNode _ l r _ => leaves l ++ leaves r
  end.

(** Some leaf carries a payload that [EQ] identifies with [data]. *)
Definition has_match (n : Node) (data : U) : bool :=
  existsb (fun leaf => EQ data (snd leaf)) (leaves n).

(** [rootBounds.contains(bnds)] for the root of a tree that has one. *)
Definition root_contains (t : AABBTree) (bnds : Box) : bool :=
  match bounds (m_root t) with
  | Ok rootBounds => contains rootBounds bnds
  | _ => false
  end.

(** ** Size of a subtree, the measure of the recursion *)

Fixpoint size (n : Node) : nat :=
  match n with
  | nullptr => 0
  | Leaf _ _ => 1
  | InnerNode _ l r _ => 2 + size l + size r
  end.

Definition is_inner (n : Node) : bool :=
  match n with
  | InnerNode _ _ _ _ => true
  | _ => false
  end.

End Tree.

Arguments nullptr {BB U}.
Arguments Leaf {BB U} m_bounds m_data.
Arguments InnerNode {BB U} m_bounds m_left m_right m_height.
Arguments This {BB U}.
Arguments Other {BB U} p.
Arguments mkAABBTree {BB U} m_root.
Arguments m_root {BB U} _.
Arguments new_AABBTree {BB} U.
Arguments bounds {BB U} n.
Arguments height {BB U} n.
Arguments balance {BB U} n.
Arguments updateBounds {BB U} n.
Arguments updateHeight {BB U} NDEBUG n.
Arguments new_InnerNode {BB U} NDEBUG left right.
Arguments selectLeastIncreaser {BB U} node1 node2 bnds.
Arguments findRebalanceCandidate {BB U} n bnds.
Arguments is_null {BB U} r.
Arguments deref {BB U} self r.
Arguments get {BB U} s n.
Arguments set {BB U} s n c.
Arguments rebalance2 {BB U} insert_rec remove_rec higher lower n.
Arguments rebalance {BB U} insert_rec remove_rec n.
Arguments InnerNode_insert {BB U} NDEBUG insert_rec remove_rec n bnds data.
Arguments doRemove {BB U} NDEBUG insert_rec remove_rec n bnds data child sibling.
Arguments InnerNode_remove {BB U} NDEBUG insert_rec remove_rec n bnds data.
Arguments Leaf_insert {BB U} NDEBUG n bnds data.
Arguments Leaf_remove {BB U} EQ n m_data data.
Arguments Node_insert {BB U} EQ NDEBUG fuel n bnds data.
Arguments Node_remove {BB U} EQ NDEBUG fuel n bnds data.
Arguments empty {BB U} t.
Arguments root_balanced {BB U} t.
Arguments insert {BB U} EQ NDEBUG fuel t bnds data.
Arguments remove {BB U} EQ NDEBUG fuel t bnds data.
Arguments tree_height {BB U} t.
Arguments tree_bounds {BB U} NDEBUG t.
Arguments bounds_correct {BB U} n.
Arguments height_correct {BB U} n.
Arguments balanced {BB U} n.
Arguments leaves {BB U} n.
Arguments has_match {BB U} EQ n data.
Arguments root_contains {BB U} t bnds.
Arguments volume_increase {BB} childBounds bnds.
Arguments Tltb {BB} x y.
Arguments insert_into {BB U} EQ NDEBUG fuel s n bnds data.
Arguments size {BB U} n.
Arguments is_inner {BB U} n.

(** ** Orders and postconditions used in the proofs *)

(** [o1] is [o2] or a run of [o2] that was cut short. *)
Definition below {A : Type} (o1 o2 : Outcome A) : Prop :=
  o1 = OutOfFuel \/ o1 = o2.

(** What [n->remove(..)] guarantees about sizes: the receiver does not grow,
    a detached child is smaller than the receiver by a leaf and an inner
    node, and so is an inner receiver that returns itself. *)
Definition remove_post {BB : BBoxOps} {U : Type} (n self : Node U) (r : Ret U) : Prop :=
  size self <= size n /\
  match r with
  | This => is_inner n = true -> size self + 3 <= size n
  | Other p => p = nullptr \/ size p + 3 <= size n
  end.

(** A run that was not cut short: it returned or it stopped on a fault. *)
Definition finishes {A : Type} (o : Outcome A) : Prop := o <> OutOfFuel.

(** Fuel that is enough for [n->insert(..)]. *)
Definition insert_fuel {BB : BBoxOps} {U : Type} (n : Node U) : nat := 2 * size n + 2.

(** Fuel that is enough for [n->remove(..)]. *)
Definition remove_fuel {BB : BBoxOps} {U : Type} (n : Node U) : nat := 2 * size n + 1.

(** ** A one-dimensional instance over the integers *)

(** Modelled from the spec: the consumed box type at [S = 1] over integer
    coordinates.  [contains] is non-strict enclosure, [mergedWith] the
    smallest enclosing box, [volume] the extent; [NaNInterval] stands for the
    box whose corners are NaN. *)
Inductive Interval : Type :=
| NaNInterval
| Iv (min max : Z).

(** Modelled from the spec: [a.contains(b)], true iff [b] is fully enclosed
    in [a], non-strict; false as soon as a NaN is compared. *)
Definition Interval_contains (a b : Interval) : bool :=
  match a, b with
  | Iv amin amax, Iv bmin bmax => (amin <=? bmin)%Z && (bmax <=? amax)%Z
  | _, _ => false
  end.

(** Modelled from the spec: [a.mergedWith(b)], the smallest box enclosing
    both. *)
Definition Interval_mergedWith (a b : Interval) : Interval :=
  match a, b with
  | Iv amin amax, Iv bmin bmax => Iv (Z.min amin bmin) (Z.max amax bmax)
  | _, _ => NaNInterval
  end.

(** Modelled from the spec: [a.volume()], in one dimension the extent
    [max - min]. *)
Definition Interval_volume (a : Interval) : Z :=
  match a with
  | Iv amin amax => (amax - amin)%Z
  | NaNInterval => 0%Z
  end.

(** Modelled from the spec: [BBox<T,1>] with integer [T]. *)
#[export] Instance IntervalOps : BBoxOps := {|
  Box := Interval;
  T := Z;
  contains := Interval_contains;
  mergedWith := Interval_mergedWith;
  volume := Interval_volume;
  Tsub := Z.sub;
  Tleb := Z.leb;
  EmptyBox := NaNInterval
|}.

(** Public operations on a tree of 1-D boxes with [nat] payloads compared by
    [Nat.eqb]. *)
Inductive Op : Type :=
| Insert (min max : Z) (data : nat)
| Remove (min max : Z) (data : nat).

(** One public call, run with fuel that is enough for the tree it is applied
    to; the boolean of [remove] is dropped. *)
Definition apply_op (NDEBUG : bool) (o : Outcome (AABBTree nat)) (op : Op)
  : Outcome (AABBTree nat) :=
  t <- o ;;
  match op with
  | Insert lo hi d => insert Nat.eqb NDEBUG (insert_fuel (m_root t)) t (Iv lo hi) d
  | Remove lo hi d =>
      ' (t, _) <- remove Nat.eqb NDEBUG (remove_fuel (m_root t)) t (Iv lo hi) d ;; Ok t
  end.

(** A sequence of public calls on a freshly constructed tree. *)
Definition run (NDEBUG : bool) (ops : list Op) : Outcome (AABBTree nat) :=
  fold_left (apply_op NDEBUG) ops (Ok (new_AABBTree nat)).

(** The scenario of the specification: boxes [A], [B], [C] with payloads
    1, 2, 3. *)
Definition scenario : list Op := [Insert 0 1 1; Insert 2 3 2; Insert 10 11 3].

Definition scenario_tree : AABBTree nat :=
  mkAABBTree
    (InnerNode (Iv 0 11) (Leaf (Iv 0 1) 1)
       (InnerNode (Iv 2 11) (Leaf (Iv 2 3) 2) (Leaf (Iv 10 11) 3) 2) 3).

(** Two leaves, none with payload 5. *)
Definition two_leaves : AABBTree nat :=
  mkAABBTree (InnerNode (Iv 0 3) (Leaf (Iv 0 1) 1) (Leaf (Iv 2 3) 2) 2).

(** Four inserts after which the root's cached height is stale. *)
Definition stale_height_ops : list Op :=
  [Insert 0 1 1; Insert 2 3 2; Insert 10 11 3; Insert 4 5 4].

Definition stale_height_tree : AABBTree nat :=
  mkAABBTree
    (InnerNode (Iv 0 11)
       (InnerNode (Iv 0 3) (Leaf (Iv 0 1) 1) (Leaf (Iv 2 3) 2) 2)
       (InnerNode (Iv 4 11) (Leaf (Iv 4 5) 4) (Leaf (Iv 10 11) 3) 2) 4).

(** Six inserts after which the root's bounds is not the merge of its
    children's bounds. *)
Definition stale_bounds_ops : list Op :=
  [Insert 0 1 1; Insert 2 3 2; Insert 4 5 4; Insert 6 7 7; Insert 0 12 6;
   Insert 20 21 5].

Definition stale_bounds_tree : AABBTree nat :=
  mkAABBTree
    (InnerNode (Iv 0 21)
       (InnerNode (Iv 0 12) (Leaf (Iv 2 3) 2) (Leaf (Iv 0 12) 6) 2)
       (InnerNode (Iv 0 12)
          (InnerNode (Iv 0 12) (Leaf (Iv 4 5) 4) (Leaf (Iv 0 12) 6) 2)
          (Leaf (Iv 6 7) 7) 3) 5).

(** Nine inserts that give a tree on which I1, I2 and I3 hold. *)
Definition nine_leaves_ops : list Op :=
  [Insert 1 4 1; Insert 17 20 2; Insert 8 10 3; Insert 15 17 4;
   Insert 17 18 5; Insert 19 21 6; Insert 14 16 7; Insert 6 7 8;
   Insert 12 13 9].

Definition nine_leaves : AABBTree nat :=
  mkAABBTree
    (InnerNode (Iv 1 21)
       (InnerNode (Iv 1 17)
          (InnerNode (Iv 1 10) (Leaf (Iv 1 4) 1)
             (InnerNode (Iv 6 10) (Leaf (Iv 8 10) 3) (Leaf (Iv 6 7) 8) 2) 3)
          (InnerNode (Iv 12 17) (Leaf (Iv 15 17) 4)
             (InnerNode (Iv 12 16) (Leaf (Iv 14 16) 7) (Leaf (Iv 12 13) 9) 2) 3) 4)
       (InnerNode (Iv 17 21)
          (InnerNode (Iv 17 21) (Leaf (Iv 19 21) 6) (Leaf (Iv 17 18) 5) 2)
          (Leaf (Iv 17 20) 2) 3) 5).

(** [nine_leaves] after [remove] of the box [17,20] with payload 2. *)
Definition unbalanced_by_remove : AABBTree nat :=
  mkAABBTree
    (InnerNode (Iv 1 20)
       (InnerNode (Iv 1 16)
          (InnerNode (Iv 1 10) (Leaf (Iv 1 4) 1)
             (InnerNode (Iv 6 10) (Leaf (Iv 8 10) 3) (Leaf (Iv 6 7) 8) 2) 3)
          (InnerNode (Iv 12 16) (Leaf (Iv 14 16) 7) (Leaf (Iv 12 13) 9) 2) 4)
       (InnerNode (Iv 15 20) (Leaf (Iv 17 20) 2) (Leaf (Iv 15 17) 4) 2) 5).

(** Ten inserts after which the root is out of balance. *)
Definition ten_inserts : list Op :=
  [Insert 5 6 1; Insert 2 3 2; Insert 28 30 3; Insert 20 22 4; Insert 8 9 5;
   Insert 28 29 6; Insert 21 22 7; Insert 19 22 8; Insert 3 4 9;
   Insert 19 21 10].

Definition unbalanced_by_insert : AABBTree nat :=
  mkAABBTree
    (InnerNode (Iv 2 30)
       (InnerNode (Iv 28 30) (Leaf (Iv 28 30) 3) (Leaf (Iv 28 29) 6) 2)
       (InnerNode (Iv 2 22)
          (InnerNode (Iv 2 4) (Leaf (Iv 2 3) 2) (Leaf (Iv 3 4) 9) 2)
          (InnerNode (Iv 5 22) (Leaf (Iv 5 6) 1)
             (InnerNode (Iv 8 22) (Leaf (Iv 8 9) 5) (Leaf (Iv 19 22) 8) 2) 3) 4) 6).

(** Nine inserts after which the left child of the root is null. *)
Definition null_child_ops : list Op :=
  [Insert 17 18 1; Insert 14 17 2; Insert 4 7 3; Insert 10 11 4;
   Insert 6 8 5; Insert 27 28 6; Insert 23 26 7; Insert 12 14 8;
   Insert 16 18 9].

Definition null_child_tree : AABBTree nat :=
  mkAABBTree
    (InnerNode (Iv 4 28) nullptr
       (InnerNode (Iv 4 14)
          (InnerNode (Iv 10 14) (Leaf (Iv 10 11) 4) (Leaf (Iv 12 14) 8) 2)
          (InnerNode (Iv 4 8) (Leaf (Iv 4 7) 3) (Leaf (Iv 6 8) 5) 2) 3) 6).

(** Four inserts that give a tree on which I1, I2 and I3 hold. *)
Definition four_leaves_ops : list Op :=
  [Insert 0 1 1; Insert 10 11 3; Insert 2 3 2; Insert 20 21 5].

Definition four_leaves : AABBTree nat :=
  mkAABBTree
    (InnerNode (Iv 0 21)
       (InnerNode (Iv 0 3) (Leaf (Iv 0 1) 1) (Leaf (Iv 2 3) 2) 2)
       (InnerNode (Iv 10 21) (Leaf (Iv 10 11) 3) (Leaf (Iv 20 21) 5) 2) 3).

Definition five_leaves : AABBTree nat :=
  mkAABBTree
    (InnerNode (Iv 0 21)
       (InnerNode (Iv 0 5) (Leaf (Iv 0 1) 1)
          (InnerNode (Iv 2 5) (Leaf (Iv 2 3) 2) (Leaf (Iv 4 5) 4) 2) 3)
       (InnerNode (Iv 10 21) (Leaf (Iv 10 11) 3) (Leaf (Iv 20 21) 5) 2) 4).

(** ** The textual dump *)

Section Dump.

Context {BB : BBoxOps} {U : Type}.

(** Modelled from the spec: the text that [m_bounds.min.write(str)] and
    [m_bounds.max.write(str)] append for the corners of a box ([Vec::write]
    is not part of the sources), and the text that [str << m_data] appends
    for a payload. *)
Variable write_min : Box -> string.
Variable write_max : Box -> string.
Variable write_data : U -> string.

(** [std::endl] *)
Definition endl : string := String "010"%char EmptyString.

(** [for (size_t i = 0; i < level; ++i) str << indent;] *)
Fixpoint indentation (indent : string) (level : nat) : string :=
  match level with
  | O => EmptyString
  | S level => String.append indent (indentation indent level)
  end.

(** [Node::appendBounds] *)
Definition appendBounds (b : Box) : string :=
  String.append "[ (" (String.append (write_min b)
    (String.append ") (" (String.append (write_max b) ") ]"))).

(** [InnerNode::appendTo] and [Leaf::appendTo], with the text appended to the
    stream as the result. *)
Fixpoint appendTo (n : Node U) (indent : string) (level : nat) : Outcome string :=
  match n with
  | nullptr => NullDeref
  | Leaf b d =>
      Ok (String.append (indentation indent level)
            (String.append "L " (String.append (appendBounds b)
               (String.append ": " (String.append (write_data d) endl)))))
  | InnerNode b l r _ =>
      let line :=
        String.append (indentation indent level)
          (String.append "O " (String.append (appendBounds b) endl)) in
      left <- appendTo l indent (S level) ;;
      right <- appendTo r indent (S level) ;;
      Ok (String.append line (String.append left right))
  end.

(** [AABBTree::print] *)
Definition print (t : AABBTree U) : Outcome string :=
  if negb (empty t) then appendTo (m_root t) "  " 0 else Ok EmptyString.

End Dump.

(** The number of line ends in a text. *)
Fixpoint count_newlines (s : string) : nat :=
  match s with
  | EmptyString => 0
  | String c s => (if Ascii.eqb c "010" then 1 else 0) + count_newlines s
  end.

(** No child pointer in the subtree is null, and the subtree is not null
    itself. *)
Fixpoint null_free {BB : BBoxOps} {U : Type} (n : Node U) : bool :=
  match n with
  | nullptr => false
  | Leaf _ _ => true
  | InnerNode _ l r _ => null_free l && null_free r
  end.

(** The number of nodes of a subtree. *)
Fixpoint node_count {BB : BBoxOps} {U : Type} (n : Node U) : nat :=
  match n with
  | nullptr => 0
  | Leaf _ _ => 1
  | InnerNode _ l r _ => 1 + node_count l + node_count r
  end.

(** Modelled from the spec: decimal renderings of the corners of a 1-D box
    and of a [nat] payload, used to run the dump. *)
Definition Interval_write_min (b : Interval) : string :=
  match b with
  | Iv lo _ => DecimalString.NilZero.string_of_int (Z.to_int lo)
  | NaNInterval => "nan"
  end.

Definition Interval_write_max (b : Interval) : string :=
  match b with
  | Iv _ hi => DecimalString.NilZero.string_of_int (Z.to_int hi)
  | NaNInterval => "nan"
  end.

Definition nat_write_data (d : nat) : string :=
  DecimalString.NilZero.string_of_uint (Nat.to_uint d).

(** ** A lawful box type without NaN *)

(** Modelled from the spec: [a.contains(b)] on boxes given as a pair of
    integer corners. *)
Definition ZBox_contains (a b : Z * Z) : bool :=
  (fst a <=? fst b)%Z && (snd b <=? snd a)%Z.

(** Modelled from the spec: [a.mergedWith(b)], the smallest enclosing box. *)
Definition ZBox_mergedWith (a b : Z * Z) : Z * Z :=
  (Z.min (fst a) (fst b), Z.max (snd a) (snd b)).

(** Modelled from the spec: [a.volume()] in one dimension. *)
Definition ZBox_volume (a : Z * Z) : Z := (snd a - fst a)%Z.

(** Modelled from the spec: [BBox<T,1>] over integers where every pair of
    corners is a box; the box of [AABBTree::bounds] on the empty tree is
    [(0,0)], what [quiet_NaN()] is for an integer type.  It is passed
    explicitly where it is used. *)
Definition ZBoxOps : BBoxOps := {|
  Box := Z * Z;
  T := Z;
  contains := ZBox_contains;
  mergedWith := ZBox_mergedWith;
  volume := ZBox_volume;
  Tsub := Z.sub;
  Tleb := Z.leb;
  EmptyBox := (0%Z, 0%Z)
|}.

(** Two leaves over [ZBoxOps]. *)
Definition zbox_two_leaves : @AABBTree ZBoxOps nat :=
  @mkAABBTree ZBoxOps nat
    (@InnerNode ZBoxOps nat (0, 3)%Z
       (@Leaf ZBoxOps nat (0, 1)%Z 1) (@Leaf ZBoxOps nat (2, 3)%Z 2) 2).

(** [zbox_two_leaves] after the insert of [(10,11)] with payload 3. *)
Definition zbox_three_leaves : @AABBTree ZBoxOps nat :=
  @mkAABBTree ZBoxOps nat
    (@InnerNode ZBoxOps nat (0, 11)%Z
       (@Leaf ZBoxOps nat (0, 1)%Z 1)
       (@InnerNode ZBoxOps nat (2, 11)%Z
          (@Leaf ZBoxOps nat (2, 3)%Z 2) (@Leaf ZBoxOps nat (10, 11)%Z 3) 2) 3).

(** The root of [stale_height_tree] during the fourth insert, after
    [updateBounds] and [updateHeight] and before [rebalance]. *)
Definition before_rebalance : Node nat :=
  InnerNode (Iv 0 11) (Leaf (Iv 0 1) 1)
    (InnerNode (Iv 2 11)
       (InnerNode (Iv 2 5) (Leaf (Iv 2 3) 2) (Leaf (Iv 4 5) 4) 2)
       (Leaf (Iv 10 11) 3) 3) 4.

(** ** The insert of the specification, for comparison with the code *)

(** Following the spec's words (4.2, step 1): the child to descend into,
    given the volume increases of the left and of the right child: the child
    with the smaller increase, the first (left) child on a tie, and no child
    where [<=] does not order the two increases. *)
Definition least_increaser {BB : BBoxOps} (incL incR : T) : option Slot :=
  if Tltb incL incR then Some Left
  else if Tltb incR incL then Some Right
  else if Tleb incL incR && Tleb incR incL then Some Left
  else None.

(** Following the spec's words (4.2, step 3): the inner node over the children
    [l] and [r], its bounds the merge of theirs and its height [1 + max];
    given only where that node is in balance (the heights of the children
    differ by at most one), so that step 4.3 has nothing to do, and where the
    height fits a [size_t]. *)
Definition spec_inner {BB : BBoxOps} {U : Type} (l r : Node U) : option (Node U) :=
  match bounds l, bounds r, height l, height r with
  | Ok lb, Ok rb, Ok lh, Ok rh =>
      if ((N.max lh rh - N.min lh rh <=? 1) && (N.max lh rh + 1 <? size_t_modulus))%N
      then Some (InnerNode (mergedWith lb rb) l r (1 + N.max lh rh))
      else None
  | _, _, _, _ => None
  end.

(** Following the spec's words (4.2, steps 1 to 4): descend by the
    least-increaser rule down to a leaf, replace that leaf by an inner node
    over it and the new leaf, and rebuild every node of the descent on the
    way up.  [None] on a descent that meets a null child, a pair of increases
    without order, or a node that would have to rebalance. *)
Fixpoint spec_insert {BB : BBoxOps} {U : Type} (n : Node U) (bnds : Box) (data : U)
  : option (Node U) :=
  match n with
  | nullptr => None
  | Leaf b d => spec_inner (Leaf b d) (Leaf bnds data)
  | InnerNode _ l r _ =>
      match bounds l, bounds r with
      | Ok lb, Ok rb =>
          match least_increaser (volume_increase lb bnds) (volume_increase rb bnds) with
          | Some Left =>
              match spec_insert l bnds data with
              | Some l' => spec_inner l' r
              | None => None
              end
          | Some Right =>
              match spec_insert r bnds data with
              | Some r' => spec_inner l r'
              | None => None
              end
          | None => None
          end
      | _, _ => None
      end
  end.

Ltac inv_bind :=
  repeat match goal with
  | H : bind ?m _ = Ok _ |- _ =>
      let a := fresh "a" in
      let E := fresh "E" in
      destruct m as [a | | | ] eqn:E; simpl in H; try discriminate H
  | H : Ok _ = Ok _ |- _ => injection H as H
  | H : (let '(_, _) := ?p in _) = Ok _ |- _ => destruct p
  end.

(** ** Basic facts about nodes *)

Section NodeFacts.

Context {BB : BBoxOps} {U : Type}.
Variable NDEBUG : bool.

Lemma below_refl {A : Type} (o : Outcome A) : below o o.
Proof. right; reflexivity. Qed.

Lemma below_trans {A : Type} (o1 o2 o3 : Outcome A) :
  below o1 o2 -> below o2 o3 -> below o1 o3.
Proof.
  intros [-> | ->]; [left; reflexivity | auto].
Qed.

Lemma bind_below {A B : Type} (m1 m2 : Outcome A) (k1 k2 : A -> Outcome B) :
  below m1 m2 -> (forall a, below (k1 a) (k2 a)) ->
  below (bind m1 k1) (bind m2 k2).
Proof.
  intros [-> | ->] Hk; [left; reflexivity | ].
  destruct m2; simpl; auto using below_refl.
Qed.

Lemma bounds_Ok_size (n : Node U) (b : Box) : bounds n = Ok b -> 1 <= size n.
Proof. destruct n; simpl; intros; try discriminate; lia. Qed.

Lemma height_Ok_size (n : Node U) (h : N) : height n = Ok h -> 1 <= size n.
Proof. destruct n; simpl; intros; try discriminate; lia. Qed.

Lemma height_inner (n : Node U) (h : N) :
  height n = Ok h -> (1 < h)%N -> is_inner n = true.
Proof.
  destruct n; simpl; intros H Hh; try discriminate; auto.
  injection H as <-. lia.
Qed.

Lemma updateBounds_Ok (n n' : Node U) :
  updateBounds n = Ok n' ->
  size n' = size n /\ is_inner n' = is_inner n /\
  forall s, get s n' = get s n.
Proof.
  destruct n; simpl; intros H; inv_bind; subst; simpl;
    repeat split; try reflexivity; intros []; reflexivity.
Qed.

Lemma updateHeight_Ok (n n' : Node U) :
  updateHeight NDEBUG n = Ok n' ->
  size n' = size n /\ is_inner n' = is_inner n /\
  forall s, get s n' = get s n.
Proof.
  destruct n; simpl; intros H; inv_bind; subst; simpl;
    repeat split; try reflexivity; intros []; reflexivity.
Qed.

Lemma findRebalanceCandidate_size (n : Node U) (bnds : Box) (c : Box * U) :
  findRebalanceCandidate n bnds = Ok c -> 1 <= size n.
Proof. destruct n; simpl; intros; try discriminate; lia. Qed.

Lemma findRebalanceCandidate_inner_size (n : Node U) (bnds : Box) (c : Box * U) :
  findRebalanceCandidate n bnds = Ok c -> is_inner n = true -> 4 <= size n.
Proof.
  destruct n; simpl; intros H Hi; try discriminate.
  inv_bind.
  apply findRebalanceCandidate_size in E, E0. lia.
Qed.

Lemma size_set (s : Slot) (n c : Node U) :
  is_inner n = true -> size (set s n c) + size (get s n) = size n + size c.
Proof. destruct n, s; simpl; intros; try discriminate; lia. Qed.

Lemma is_inner_set (s : Slot) (n c : Node U) : is_inner (set s n c) = is_inner n.
Proof. destruct n, s; reflexivity. Qed.

Lemma get_set_other (s : Slot) (n c : Node U) :
  get (other s) (set s n c) = get (other s) n.
Proof. destruct n, s; reflexivity. Qed.

Lemma size_inner (n : Node U) :
  is_inner n = true -> size n = 2 + size (get Left n) + size (get Right n).
Proof. destruct n; simpl; intros; try discriminate; reflexivity. Qed.

End NodeFacts.

(** ** More fuel never changes a finished run *)

Section Monotone.

Context {BB : BBoxOps} {U : Type}.
Variable NDEBUG : bool.
Variables ins1 ins2 : Node U -> Box -> U -> Outcome (Node U).
Variables rem1 rem2 : Node U -> Box -> U -> Outcome (Node U * Ret U).
Hypothesis Hins : forall n b d, below (ins1 n b d) (ins2 n b d).
Hypothesis Hrem : forall n b d, below (rem1 n b d) (rem2 n b d).

Local Ltac mono_step :=
  match goal with
  | |- below ?x ?x => apply below_refl
  | |- below (bind _ _) (bind _ _) => apply bind_below; [ | intros ? ]
  | |- below (ins1 _ _ _) (ins2 _ _ _) => apply Hins
  | |- below (rem1 _ _ _) (rem2 _ _ _) => apply Hrem
  | |- below (if ?c then _ else _) _ => destruct c
  | |- below (match ?x with _ => _ end) _ => destruct x
  end.

Lemma rebalance2_below (higher lower : Slot) (n : Node U) :
  below (rebalance2 ins1 rem1 higher lower n) (rebalance2 ins2 rem2 higher lower n).
Proof. unfold rebalance2; cbv zeta; repeat mono_step. Qed.

Lemma rebalance_below (n : Node U) :
  below (rebalance ins1 rem1 n) (rebalance ins2 rem2 n).
Proof.
  unfold rebalance; repeat mono_step; apply rebalance2_below.
Qed.

Lemma InnerNode_insert_below (n : Node U) (bnds : Box) (data : U) :
  below (InnerNode_insert NDEBUG ins1 rem1 n bnds data)
        (InnerNode_insert NDEBUG ins2 rem2 n bnds data).
Proof.
  unfold InnerNode_insert; cbv zeta; repeat mono_step; apply rebalance_below.
Qed.

Lemma doRemove_below (n : Node U) (bnds : Box) (data : U) (child sibling : Slot) :
  below (doRemove NDEBUG ins1 rem1 n bnds data child sibling)
        (doRemove NDEBUG ins2 rem2 n bnds data child sibling).
Proof.
  unfold doRemove; cbv zeta; repeat mono_step; apply rebalance_below.
Qed.

Lemma InnerNode_remove_below (n : Node U) (bnds : Box) (data : U) :
  below (InnerNode_remove NDEBUG ins1 rem1 n bnds data)
        (InnerNode_remove NDEBUG ins2 rem2 n bnds data).
Proof.
  unfold InnerNode_remove.
  apply bind_below; [apply doRemove_below | intros [n' result]].
  destruct (negb (is_null result)); [apply below_refl | apply doRemove_below].
Qed.

End Monotone.

Section Fuel.

Context {BB : BBoxOps} {U : Type}.
Variable EQ : U -> U -> bool.
Variable NDEBUG : bool.

Lemma Node_fuel_step (fuel : nat) :
  (forall n b d, below (Node_insert EQ NDEBUG fuel n b d)
                       (Node_insert EQ NDEBUG (S fuel) n b d)) /\
  (forall n b d, below (Node_remove EQ NDEBUG fuel n b d)
                       (Node_remove EQ NDEBUG (S fuel) n b d)).
Proof.
  induction fuel as [ | fuel [IHi IHr]].
  - split; intros; left; reflexivity.
  - split; intros n b d; destruct n; try apply below_refl.
    + apply (InnerNode_insert_below NDEBUG _ _ _ _ IHi IHr).
    + apply (InnerNode_remove_below NDEBUG _ _ _ _ IHi IHr).
Qed.

Lemma Node_insert_fuel (fuel fuel' : nat) (n : Node U) (b : Box) (d : U) :
  fuel <= fuel' ->
  below (Node_insert EQ NDEBUG fuel n b d) (Node_insert EQ NDEBUG fuel' n b d).
Proof.
  induction 1 as [ | m _ IH]; [apply below_refl | ].
  eapply below_trans; [exact IH | apply Node_fuel_step].
Qed.

Lemma Node_remove_fuel (fuel fuel' : nat) (n : Node U) (b : Box) (d : U) :
  fuel <= fuel' ->
  below (Node_remove EQ NDEBUG fuel n b d) (Node_remove EQ NDEBUG fuel' n b d).
Proof.
  induction 1 as [ | m _ IH]; [apply below_refl | ].
  eapply below_trans; [exact IH | apply Node_fuel_step].
Qed.

End Fuel.

(** ** Sizes: [insert] adds at most a leaf and an inner node, [remove] and
    [rebalance] never grow the subtree *)

Section Sizes.

Context {BB : BBoxOps} {U : Type}.
Variable NDEBUG : bool.
Variable ins : Node U -> Box -> U -> Outcome (Node U).
Variable rem : Node U -> Box -> U -> Outcome (Node U * Ret U).
Hypothesis Hins : forall n b d n', ins n b d = Ok n' -> size n' <= size n + 3.
Hypothesis Hrem : forall n b d self r, rem n b d = Ok (self, r) -> remove_post n self r.

Lemma rebalance2_size (higher : Slot) (n n' : Node U) :
  is_inner n = true -> is_inner (get higher n) = true ->
  rebalance2 ins rem higher (other higher) n = Ok n' ->
  size n' <= size n /\ is_inner n' = true.
Proof.
  unfold rebalance2; cbv zeta; intros Hn Hh H; inv_bind.
  rewrite get_set_other in E2.
  apply Hins in E2. apply Hrem in E1. destruct E1 as [_ Hpost].
  apply findRebalanceCandidate_inner_size in E0; [ | exact Hh].
  subst n'. rewrite !is_inner_set. split; [ | exact Hn].
  assert (Hd : size (deref n0 r) + 3 <= size (get higher n)).
  { destruct r as [ | p]; simpl in *; [auto | ].
    destruct Hpost as [-> | Hp]; simpl; lia. }
  pose proof (size_set higher n (deref n0 r) Hn) as S1.
  pose proof (size_set (other higher) (set higher n (deref n0 r)) a1) as S2.
  rewrite is_inner_set, get_set_other in S2. specialize (S2 Hn).
  lia.
Qed.

Lemma rebalance_size (n n' : Node U) :
  is_inner n = true -> rebalance ins rem n = Ok n' ->
  size n' <= size n /\ is_inner n' = true.
Proof.
  unfold rebalance; intros Hn H; inv_bind.
  destruct ((a0 <? a)%N && (1 <? a - a0)%N) eqn:C1.
  - apply andb_prop in C1; destruct C1 as [C1 C2].
    apply N.ltb_lt in C1, C2.
    apply (rebalance2_size Left); auto.
    eapply height_inner; [exact E | lia].
  - destruct ((a <? a0)%N && (1 <? a0 - a)%N) eqn:C2.
    + apply andb_prop in C2; destruct C2 as [C2 C3].
      apply N.ltb_lt in C2, C3.
      apply (rebalance2_size Right); auto.
      eapply height_inner; [exact E0 | lia].
    + injection H as <-. split; [lia | exact Hn].
Qed.

Lemma doRemove_size (n n' : Node U) (bnds : Box) (data : U) (child : Slot) (res : Ret U) :
  is_inner n = true ->
  doRemove NDEBUG ins rem n bnds data child (other child) = Ok (n', res) ->
  is_inner n' = true /\ size n' <= size n /\
  match res with
  | This => size n' + 3 <= size n
  | Other p => p = nullptr \/ size p + 3 <= size n
  end.
Proof.
  unfold doRemove; intros Hn H; inv_bind.
  destruct (contains a bnds).
  2:{ injection H as <- <-. repeat split; auto. }
  inv_bind.
  pose proof (Hrem _ _ _ _ _ E0) as [Hself Hpost].
  pose proof (bounds_Ok_size _ _ E) as Hchild.
  pose proof (size_set child n) as Sc.
  destruct (is_null r) eqn:Hnull.
  - injection H as <- <-.
    rewrite !is_inner_set. split; [exact Hn | ].
    pose proof (size_set (other child) (set child n n0) nullptr) as Ss.
    rewrite is_inner_set, get_set_other in Ss.
    specialize (Ss Hn). specialize (Sc n0 Hn). simpl in Ss.
    pose proof (size_inner n Hn) as Sn.
    assert (size (get child n) + size (get (other child) n) + 2 = size n)
      by (destruct child; simpl; lia).
    split; [lia | right; lia].
  - destruct r as [ | p].
    + injection H as <- <-.
      rewrite is_inner_set. specialize (Sc n0 Hn).
      split; [exact Hn | split; [lia | left; reflexivity]].
    + inv_bind. subst.
      destruct Hpost as [-> | Hp]; [discriminate Hnull | ].
      specialize (Sc p Hn).
      apply updateBounds_Ok in E1; destruct E1 as (S1 & I1 & _).
      apply updateHeight_Ok in E2; destruct E2 as (S2 & I2 & _).
      rewrite is_inner_set in I1.
      apply rebalance_size in E3; [ | congruence].
      destruct E3 as [S3 I3].
      split; [exact I3 | split; lia].
Qed.

Lemma InnerNode_remove_size (n self : Node U) (bnds : Box) (data : U) (r : Ret U) :
  is_inner n = true ->
  InnerNode_remove NDEBUG ins rem n bnds data = Ok (self, r) ->
  remove_post n self r.
Proof.
  unfold InnerNode_remove; intros Hn H; inv_bind.
  apply (doRemove_size _ _ _ _ Left) in E; [ | exact Hn].
  destruct E as (I1 & S1 & P1).
  destruct (negb (is_null r0)).
  - injection H as <- <-. split; [exact S1 | ].
    destruct r0; [intros _; exact P1 | exact P1].
  - apply (doRemove_size _ _ _ _ Right) in H; [ | exact I1].
    destruct H as (I2 & S2 & P2).
    split; [lia | ].
    destruct r as [ | p]; [intros _; lia | destruct P2; [auto | right; lia]].
Qed.

Lemma InnerNode_insert_size (n n' : Node U) (bnds : Box) (data : U) :
  is_inner n = true ->
  InnerNode_insert NDEBUG ins rem n bnds data = Ok n' ->
  size n' <= size n + 3.
Proof.
  unfold InnerNode_insert; cbv zeta; intros Hn H; inv_bind.
  apply Hins in E0.
  pose proof (size_set (match a with Node1 => Left | Node2 => Right end) n a0 Hn) as S0.
  apply updateBounds_Ok in E1; destruct E1 as (S1 & I1 & _).
  apply updateHeight_Ok in E2; destruct E2 as (S2 & I2 & _).
  rewrite is_inner_set in I1.
  apply rebalance_size in H; [ | congruence].
  lia.
Qed.

End Sizes.

Section NodeSizes.

Context {BB : BBoxOps} {U : Type}.
Variable EQ : U -> U -> bool.
Variable NDEBUG : bool.

Lemma Leaf_insert_size (n n' : Node U) (bnds : Box) (data : U) :
  Leaf_insert NDEBUG n bnds data = Ok n' -> size n' = size n + 3.
Proof.
  unfold Leaf_insert, new_InnerNode; intros H; inv_bind.
  subst n'. simpl. lia.
Qed.

Lemma Node_sizes (fuel : nat) :
  (forall n b d n', Node_insert EQ NDEBUG fuel n b d = Ok n' -> size n' <= size n + 3) /\
  (forall n b d self r,
      Node_remove EQ NDEBUG fuel n b d = Ok (self, r) -> remove_post n self r).
Proof.
  induction fuel as [ | fuel [IHi IHr]]; [split; intros; discriminate | ].
  split.
  - intros n b d n' H. destruct n; simpl in H; try discriminate.
    + apply Leaf_insert_size in H. lia.
    + eapply InnerNode_insert_size; eauto.
  - intros n b d self r H. destruct n; simpl in H; try discriminate.
    + unfold Leaf_remove in H. destruct (EQ d m_data); injection H as <- <-.
      * split; [lia | left; reflexivity].
      * split; [lia | intros; discriminate].
    + eapply InnerNode_remove_size; eauto.
Qed.

End NodeSizes.

(** ** Termination: fuel linear in the size of the subtree is enough *)

Section Finishes.

Context {BB : BBoxOps} {U : Type}.
Variable NDEBUG : bool.

Lemma bind_finishes {A B : Type} (m : Outcome A) (k : A -> Outcome B) :
  finishes m -> (forall a, m = Ok a -> finishes (k a)) -> finishes (bind m k).
Proof.
  unfold finishes; destruct m; simpl; intros Hm Hk; auto; discriminate.
Qed.

Lemma Ok_finishes {A : Type} (a : A) : finishes (Ok a).
Proof. discriminate. Qed.

Lemma bounds_finishes (n : Node U) : finishes (bounds n).
Proof. destruct n; discriminate. Qed.

Lemma height_finishes (n : Node U) : finishes (height n).
Proof. destruct n; discriminate. Qed.

Lemma assert_finishes (c : bool) : finishes (assert NDEBUG (Ok c)).
Proof. unfold assert; destruct NDEBUG, c; discriminate. Qed.

Lemma updateBounds_finishes (n : Node U) : finishes (updateBounds n).
Proof.
  destruct n; simpl; try apply Ok_finishes.
  repeat (apply bind_finishes; [apply bounds_finishes | intros ? _]).
  apply Ok_finishes.
Qed.

Lemma updateHeight_finishes (n : Node U) : finishes (updateHeight NDEBUG n).
Proof.
  destruct n; simpl; try apply Ok_finishes.
  repeat (apply bind_finishes; [apply height_finishes | intros ? _]).
  apply bind_finishes; [apply assert_finishes | intros ? _].
  apply Ok_finishes.
Qed.

Lemma selectLeastIncreaser_finishes (n1 n2 : Node U) (bnds : Box) :
  finishes (selectLeastIncreaser n1 n2 bnds).
Proof.
  unfold selectLeastIncreaser.
  repeat (apply bind_finishes; [apply bounds_finishes | intros ? _]).
  apply Ok_finishes.
Qed.

Lemma findRebalanceCandidate_finishes (n : Node U) (bnds : Box) :
  finishes (findRebalanceCandidate n bnds).
Proof.
  induction n as [ | | b l IHl r IHr h]; simpl; try discriminate.
  apply bind_finishes; [exact IHl | intros ? _].
  apply bind_finishes; [exact IHr | intros ? _].
  destruct selectLeastIncreaserBox; apply Ok_finishes.
Qed.

Lemma Leaf_insert_finishes (n : Node U) (bnds : Box) (data : U) :
  finishes (Leaf_insert NDEBUG n bnds data).
Proof.
  unfold Leaf_insert, new_InnerNode.
  repeat (apply bind_finishes; [apply bounds_finishes | intros ? _]).
  repeat (apply bind_finishes; [apply assert_finishes | intros ? _]).
  apply updateHeight_finishes.
Qed.

Variable ins : Node U -> Box -> U -> Outcome (Node U).
Variable rem : Node U -> Box -> U -> Outcome (Node U * Ret U).
Variable K : nat.
Hypothesis Hins : forall n b d n', ins n b d = Ok n' -> size n' <= size n + 3.
Hypothesis Hrem : forall n b d self r, rem n b d = Ok (self, r) -> remove_post n self r.
Hypothesis Hins_fin : forall n b d, insert_fuel n <= K -> finishes (ins n b d).
Hypothesis Hrem_fin : forall n b d, remove_fuel n <= K -> finishes (rem n b d).

Lemma rebalance2_finishes (higher : Slot) (n : Node U) :
  is_inner n = true -> is_inner (get higher n) = true -> 2 * size n <= K + 5 ->
  finishes (rebalance2 ins rem higher (other higher) n).
Proof.
  unfold rebalance2; cbv zeta; intros Hn Hh HK.
  apply bind_finishes; [apply bounds_finishes | intros lb Elb].
  apply bind_finishes; [apply findRebalanceCandidate_finishes | intros c Ec].
  apply bounds_Ok_size in Elb.
  apply findRebalanceCandidate_inner_size in Ec; [ | exact Hh].
  assert (Sn : size (get higher n) + size (get (other higher) n) + 2 = size n)
    by (rewrite (size_inner n Hn); destruct higher; simpl; lia).
  apply bind_finishes; [apply Hrem_fin; unfold remove_fuel; lia | intros [self r] _].
  apply bind_finishes; [ | intros; apply Ok_finishes].
  apply Hins_fin. rewrite get_set_other. unfold insert_fuel; lia.
Qed.

Lemma rebalance_finishes (n : Node U) :
  is_inner n = true -> 2 * size n <= K + 5 -> finishes (rebalance ins rem n).
Proof.
  unfold rebalance; intros Hn HK.
  apply bind_finishes; [apply height_finishes | intros lh El].
  apply bind_finishes; [apply height_finishes | intros rh Er].
  destruct ((rh <? lh)%N && (1 <? lh - rh)%N) eqn:C1.
  - apply andb_prop in C1; destruct C1 as [C1 C2].
    apply N.ltb_lt in C1, C2.
    apply (rebalance2_finishes Left); auto.
    eapply height_inner; [exact El | lia].
  - destruct ((lh <? rh)%N && (1 <? rh - lh)%N) eqn:C2; [ | apply Ok_finishes].
    apply andb_prop in C2; destruct C2 as [C2 C3].
    apply N.ltb_lt in C2, C3.
    apply (rebalance2_finishes Right); auto.
    eapply height_inner; [exact Er | lia].
Qed.

Lemma InnerNode_insert_finishes (n : Node U) (bnds : Box) (data : U) :
  is_inner n = true -> 2 * size n + 1 <= K ->
  finishes (InnerNode_insert NDEBUG ins rem n bnds data).
Proof.
  unfold InnerNode_insert; cbv zeta; intros Hn HK.
  apply bind_finishes; [apply selectLeastIncreaser_finishes | intros c Ec].
  unfold selectLeastIncreaser in Ec; inv_bind.
  apply bounds_Ok_size in E, E0.
  pose proof (size_inner n Hn) as Sn.
  set (subtree := match c with Node1 => Left | Node2 => Right end).
  apply bind_finishes.
  { apply Hins_fin. unfold insert_fuel, subtree. destruct c; simpl; lia. }
  intros n1 E1. apply Hins in E1.
  pose proof (size_set subtree n n1 Hn) as S1.
  apply bind_finishes; [apply updateBounds_finishes | intros n2 E2].
  apply updateBounds_Ok in E2; destruct E2 as (S2 & I2 & _).
  apply bind_finishes; [apply updateHeight_finishes | intros n3 E3].
  apply updateHeight_Ok in E3; destruct E3 as (S3 & I3 & _).
  rewrite is_inner_set in I2.
  apply rebalance_finishes; [congruence | lia].
Qed.

Lemma doRemove_finishes (n : Node U) (bnds : Box) (data : U) (child : Slot) :
  is_inner n = true -> 2 * size n <= K ->
  finishes (doRemove NDEBUG ins rem n bnds data child (other child)).
Proof.
  unfold doRemove; intros Hn HK.
  apply bind_finishes; [apply bounds_finishes | intros cb Ecb].
  destruct (contains cb bnds); [ | apply Ok_finishes].
  assert (Sn : size (get child n) + size (get (other child) n) + 2 = size n)
    by (rewrite (size_inner n Hn); destruct child; simpl; lia).
  apply bind_finishes; [apply Hrem_fin; unfold remove_fuel; lia | intros [self r] Er].
  apply Hrem in Er; destruct Er as [Hself Hpost].
  destruct (is_null r) eqn:Hnull; [apply Ok_finishes | ].
  destruct r as [ | p]; [apply Ok_finishes | ].
  destruct Hpost as [-> | Hp]; [discriminate Hnull | ].
  pose proof (size_set child n p Hn) as S1.
  apply bind_finishes; [apply updateBounds_finishes | intros n2 E2].
  apply updateBounds_Ok in E2; destruct E2 as (S2 & I2 & _).
  apply bind_finishes; [apply updateHeight_finishes | intros n3 E3].
  apply updateHeight_Ok in E3; destruct E3 as (S3 & I3 & _).
  rewrite is_inner_set in I2.
  apply bind_finishes; [ | intros; apply Ok_finishes].
  apply rebalance_finishes; [congruence | lia].
Qed.

Lemma InnerNode_remove_finishes (n : Node U) (bnds : Box) (data : U) :
  is_inner n = true -> 2 * size n <= K ->
  finishes (InnerNode_remove NDEBUG ins rem n bnds data).
Proof.
  unfold InnerNode_remove; intros Hn HK.
  apply bind_finishes; [apply (doRemove_finishes _ _ _ Left); auto | ].
  intros [n1 r1] E1.
  apply (doRemove_size NDEBUG ins rem Hins Hrem _ _ _ _ Left) in E1; [ | exact Hn].
  destruct E1 as (I1 & S1 & _).
  destruct (negb (is_null r1)); [apply Ok_finishes | ].
  apply (doRemove_finishes _ _ _ Right); [exact I1 | lia].
Qed.

End Finishes.

Section NodeFinishes.

Context {BB : BBoxOps} {U : Type}.
Variable EQ : U -> U -> bool.
Variable NDEBUG : bool.

Lemma Node_finishes (K : nat) :
  (forall n b d, insert_fuel n <= K -> finishes (Node_insert EQ NDEBUG K n b d)) /\
  (forall n b d, remove_fuel n <= K -> finishes (Node_remove EQ NDEBUG K n b d)).
Proof.
  induction K as [ | K [IHi IHr]].
  - split; intros n b d H; unfold insert_fuel, remove_fuel in H; lia.
  - destruct (Node_sizes EQ NDEBUG K) as [Si Sr].
    split; intros n b d H; destruct n; simpl; try discriminate.
    + apply Leaf_insert_finishes.
    + unfold insert_fuel in H.
      apply InnerNode_insert_finishes with (K := K); auto; lia.
    + unfold Leaf_remove. destruct (EQ d m_data); discriminate.
    + unfold remove_fuel in H.
      apply InnerNode_remove_finishes with (K := K); auto; lia.
Qed.

(** With enough fuel [n->insert(..)] has one outcome, whatever the fuel. *)
Lemma Node_insert_total (fuel : nat) (n : Node U) (b : Box) (d : U) :
  insert_fuel n <= fuel ->
  Node_insert EQ NDEBUG fuel n b d = Node_insert EQ NDEBUG (insert_fuel n) n b d /\
  finishes (Node_insert EQ NDEBUG fuel n b d).
Proof.
  intros H.
  pose proof (proj1 (Node_finishes (insert_fuel n)) n b d (le_n _)) as F.
  destruct (Node_insert_fuel EQ NDEBUG _ _ n b d H) as [E | E]; [contradiction | ].
  rewrite <- E. split; [reflexivity | exact F].
Qed.

(** With enough fuel [n->remove(..)] has one outcome, whatever the fuel. *)
Lemma Node_remove_total (fuel : nat) (n : Node U) (b : Box) (d : U) :
  remove_fuel n <= fuel ->
  Node_remove EQ NDEBUG fuel n b d = Node_remove EQ NDEBUG (remove_fuel n) n b d /\
  finishes (Node_remove EQ NDEBUG fuel n b d).
Proof.
  intros H.
  pose proof (proj2 (Node_finishes (remove_fuel n)) n b d (le_n _)) as F.
  destruct (Node_remove_fuel EQ NDEBUG _ _ n b d H) as [E | E]; [contradiction | ].
  rewrite <- E. split; [reflexivity | exact F].
Qed.

End NodeFinishes.

(** ** The public operations finish *)

Section TreeTotal.

Context {BB : BBoxOps} {U : Type}.
Variable EQ : U -> U -> bool.
Variable NDEBUG : bool.

Lemma root_balanced_finishes (t : AABBTree U) : finishes (root_balanced t).
Proof.
  unfold root_balanced. apply bind_finishes; [ | intros; apply Ok_finishes].
  destruct (m_root t); simpl; try discriminate.
  repeat (apply bind_finishes; [apply height_finishes | intros ? _]).
  apply Ok_finishes.
Qed.

Lemma assert_outcome_finishes (c : Outcome bool) :
  finishes c -> finishes (assert NDEBUG c).
Proof.
  unfold assert. destruct NDEBUG; [intros; apply Ok_finishes | ].
  intros Hc. apply bind_finishes; [exact Hc | intros [] _; discriminate].
Qed.

(** [AABBTree::insert] has one outcome for every fuel from [insert_fuel] on. *)
Lemma insert_total (fuel : nat) (t : AABBTree U) (b : Box) (d : U) :
  insert_fuel (m_root t) <= fuel ->
  insert EQ NDEBUG fuel t b d = insert EQ NDEBUG (insert_fuel (m_root t)) t b d /\
  finishes (insert EQ NDEBUG fuel t b d).
Proof.
  intros H. unfold insert.
  destruct (Node_insert_total EQ NDEBUG fuel (m_root t) b d H) as [E F].
  rewrite E. split; [reflexivity | ].
  apply bind_finishes.
  - destruct (empty t); [apply Ok_finishes | ].
    apply bind_finishes; [rewrite <- E; exact F | intros; apply Ok_finishes].
  - intros t' _. apply bind_finishes; [ | intros; apply Ok_finishes].
    apply assert_outcome_finishes, root_balanced_finishes.
Qed.

(** [AABBTree::remove] has one outcome for every fuel from [remove_fuel] on. *)
Lemma remove_total (fuel : nat) (t : AABBTree U) (b : Box) (d : U) :
  remove_fuel (m_root t) <= fuel ->
  remove EQ NDEBUG fuel t b d = remove EQ NDEBUG (remove_fuel (m_root t)) t b d /\
  finishes (remove EQ NDEBUG fuel t b d).
Proof.
  intros H. unfold remove.
  destruct (Node_remove_total EQ NDEBUG fuel (m_root t) b d H) as [E F].
  rewrite E. split; [reflexivity | ].
  destruct (empty t); [apply Ok_finishes | ].
  apply bind_finishes; [apply bounds_finishes | intros rb _].
  destruct (contains rb b); [ | apply Ok_finishes].
  apply bind_finishes; [rewrite <- E; exact F | intros [self newRoot] _].
  apply bind_finishes; [ | intros; apply Ok_finishes].
  apply assert_outcome_finishes.
  destruct (empty _); [apply Ok_finishes | apply root_balanced_finishes].
Qed.

End TreeTotal.

(** ** The claims *)

Section Claims.

Context {BB : BBoxOps} {U : Type}.
Variable EQ : U -> U -> bool.
Variable NDEBUG : bool.

(** On the empty tree [remove] returns [false] and changes nothing. *)
Lemma remove_empty (fuel : nat) (bnds : Box) (data : U) :
  remove EQ NDEBUG fuel (new_AABBTree U) bnds data = Ok (new_AABBTree U, false).
Proof. reflexivity. Qed.

(** X15. From the empty tree, an insert followed by the remove of the same
    pair returns [true] and gives the empty tree back, when the box contains
    itself and [EQ] accepts the payload against itself. *)
Lemma insert_remove_from_empty (fuel : nat) (bnds : Box) (data : U) :
  fuel <> 0 ->
  contains bnds bnds = true ->
  EQ data data = true ->
  exists t,
    insert EQ NDEBUG fuel (new_AABBTree U) bnds data = Ok t /\
    remove EQ NDEBUG fuel t bnds data = Ok (new_AABBTree U, true).
Proof.
  intros Hf Hc He. exists (mkAABBTree (Leaf bnds data)).
  destruct fuel as [ | fuel]; [contradiction | ].
  unfold insert, remove, assert; simpl.
  rewrite Hc. unfold Leaf_remove. rewrite He.
  destruct NDEBUG; split; reflexivity.
Qed.

(** C6. On a non-empty tree, [remove] with a box that the root's bounds does
    not contain returns [false] and leaves the tree as it was, whatever the
    payload and for every amount of fuel. *)
Theorem remove_not_contained (fuel : nat) (t : AABBTree U) (bnds : Box) (data : U) :
  empty t = false ->
  root_contains t bnds = false ->
  remove EQ NDEBUG fuel t bnds data = Ok (t, false).
Proof.
  unfold remove, root_contains, empty.
  destruct (m_root t) as [ | b d | b l r h]; simpl; intros He Hc;
    try discriminate; rewrite Hc; reflexivity.
Qed.

(** The code's choice is the rule of the specification wherever the rule
    names a child. *)
Lemma least_increaser_select (lb rb bnds : Box) (s : Slot) :
  least_increaser (volume_increase lb bnds) (volume_increase rb bnds) = Some s ->
  selectLeastIncreaserBox lb rb bnds = match s with Left => Node1 | Right => Node2 end.
Proof.
  unfold least_increaser, selectLeastIncreaserBox, Tltb.
  fold (volume_increase lb bnds) (volume_increase rb bnds).
  destruct (Tleb (volume_increase lb bnds) (volume_increase rb bnds)),
    (Tleb (volume_increase rb bnds) (volume_increase lb bnds));
    simpl; intros H; inversion H; reflexivity.
Qed.

(** Where [spec_inner] gives a node, the code's [updateBounds],
    [updateHeight] and [rebalance] give the same node, in both builds. *)
Lemma spec_inner_code
    (ins : Node U -> Box -> U -> Outcome (Node U))
    (rem : Node U -> Box -> U -> Outcome (Node U * Ret U))
    (b : Box) (l r : Node U) (h : N) (n' : Node U) :
  spec_inner l r = Some n' ->
  (n2 <- updateBounds (InnerNode b l r h) ;;
   n3 <- updateHeight NDEBUG n2 ;;
   rebalance ins rem n3) = Ok n'.
Proof.
  unfold spec_inner.
  destruct (bounds l) as [lb | | | ] eqn:Bl; try discriminate.
  destruct (bounds r) as [rb | | | ] eqn:Br; try discriminate.
  destruct (height l) as [lh | | | ] eqn:El; try discriminate.
  destruct (height r) as [rh | | | ] eqn:Er; try discriminate.
  destruct (_ && _)%bool eqn:G; [ | discriminate].
  apply andb_prop in G. destruct G as [G1 G2].
  apply N.leb_le in G1. apply N.ltb_lt in G2.
  intros H. injection H as <-.
  assert (Hw : wrap_size_t (N.max lh rh + 1) = (1 + N.max lh rh)%N).
  { unfold wrap_size_t. rewrite N.mod_small by exact G2. apply N.add_comm. }
  assert (Ha : assert NDEBUG (Ok (0 <? 1 + N.max lh rh)%N) = Ok tt).
  { unfold assert. destruct NDEBUG; [reflexivity | ]. cbn [bind].
    assert (Hp : (0 <? 1 + N.max lh rh)%N = true) by (apply N.ltb_lt; lia).
    rewrite Hp. reflexivity. }
  assert (C1 : ((rh <? lh) && (1 <? lh - rh))%N = false).
  { apply andb_false_iff.
    destruct (N.ltb_spec rh lh); [right | left; reflexivity].
    apply N.ltb_ge. lia. }
  assert (C2 : ((lh <? rh) && (1 <? rh - lh))%N = false).
  { apply andb_false_iff.
    destruct (N.ltb_spec lh rh); [right | left; reflexivity].
    apply N.ltb_ge. lia. }
  unfold updateBounds. rewrite Bl, Br. cbn [bind].
  unfold updateHeight. rewrite El, Er. cbn [bind].
  rewrite Hw, Ha. cbn [bind].
  unfold rebalance. cbn [get]. rewrite El, Er. cbn [bind].
  rewrite C1, C2. reflexivity.
Qed.

(** C7. At every inner node whose children are both present, for every fuel
    and whether or not the node rebalances afterwards, [insert] recurses into
    the child that the least-increaser rule names: the child whose volume
    increase is smaller, the first (left) child when the two increases are
    equal.  And the descent as a whole is the one of the specification:
    where [spec_insert], which follows the rule at every inner node down to a
    leaf, gives a tree, the code's [insert] returns exactly that tree, in
    both builds and for every fuel from [insert_fuel] on. *)
Theorem insert_descends_into_least_increaser :
  (forall (fuel : nat) (b : Box) (l r : Node U) (h : N) (bnds : Box) (data : U)
          (lb rb : Box) (s : Slot),
      bounds l = Ok lb ->
      bounds r = Ok rb ->
      least_increaser (volume_increase lb bnds) (volume_increase rb bnds) = Some s ->
      Node_insert EQ NDEBUG (S fuel) (InnerNode b l r h) bnds data
        = insert_into EQ NDEBUG fuel s (InnerNode b l r h) bnds data) /\
  (forall (n n' : Node U) (bnds : Box) (data : U) (fuel : nat),
      spec_insert n bnds data = Some n' ->
      insert_fuel n <= fuel ->
      Node_insert EQ NDEBUG fuel n bnds data = Ok n').
Proof.
  split.
  - intros fuel b l r h bnds data lb rb s Hl Hr Hs.
    apply least_increaser_select in Hs.
    simpl. unfold InnerNode_insert, selectLeastIncreaser, insert_into. simpl.
    rewrite Hl, Hr. simpl. rewrite Hs. destruct s; reflexivity.
  - intros n. induction n as [ | b d | b l IHl r IHr h];
      intros n' bnds data fuel Hspec Hfuel; simpl in Hspec.
    + discriminate.
    + destruct fuel as [ | fuel]; [unfold insert_fuel in Hfuel; simpl in Hfuel; lia | ].
      unfold spec_inner in Hspec. simpl in Hspec. injection Hspec as <-.
      simpl. unfold Leaf_insert, new_InnerNode, assert. simpl.
      destruct NDEBUG; reflexivity.
    + destruct fuel as [ | fuel]; [unfold insert_fuel in Hfuel; simpl in Hfuel; lia | ].
      destruct (bounds l) as [lb | | | ] eqn:El; try discriminate.
      destruct (bounds r) as [rb | | | ] eqn:Er; try discriminate.
      destruct (least_increaser _ _) as [s | ] eqn:Hs; [ | discriminate].
      apply least_increaser_select in Hs.
      unfold insert_fuel in *. simpl in Hfuel.
      cbn [Node_insert]. unfold InnerNode_insert, selectLeastIncreaser.
      cbn [get]. rewrite El, Er. cbn [bind]. rewrite Hs.
      destruct s; cbn [get set].
      * destruct (spec_insert l bnds data) as [l' | ] eqn:Sl; [ | discriminate].
        rewrite (IHl l' bnds data fuel Sl) by lia. cbn [bind].
        exact (spec_inner_code _ _ b l' r h n' Hspec).
      * destruct (spec_insert r bnds data) as [r' | ] eqn:Sr; [ | discriminate].
        rewrite (IHr r' bnds data fuel Sr) by lia. cbn [bind].
        exact (spec_inner_code _ _ b l r' h n' Hspec).
Qed.

(** C9, amended.  On a freshly constructed tree, and again after the one
    remaining leaf has been removed, [empty()] is true and [height()] is 0 in
    every build; [bounds()] returns the NaN box when assertions are compiled
    out and stops on [assert(!empty())] when they are not. *)
Theorem empty_tree_queries :
  let sentinel := if NDEBUG then Ok EmptyBox else AssertFail in
  (empty (new_AABBTree U) = true /\
   tree_height (new_AABBTree U) = Ok 0%N /\
   tree_bounds NDEBUG (new_AABBTree U) = sentinel) /\
  (forall (fuel : nat) (b : Box) (d : U) (bnds : Box) (data : U),
      fuel <> 0 ->
      contains b bnds = true ->
      EQ data d = true ->
      exists t',
        remove EQ NDEBUG fuel (mkAABBTree (Leaf b d)) bnds data = Ok (t', true) /\
        empty t' = true /\
        tree_height t' = Ok 0%N /\
        tree_bounds NDEBUG t' = sentinel).
Proof.
  split.
  - unfold tree_bounds, assert; simpl. destruct NDEBUG; auto.
  - intros fuel b d bnds data Hf Hc He.
    exists (new_AABBTree U).
    destruct fuel as [ | fuel]; [contradiction | ].
    unfold remove, tree_bounds, assert; simpl.
    rewrite Hc. unfold Leaf_remove. rewrite He. simpl.
    destruct NDEBUG; simpl; auto.
Qed.

(** X21. On a non-empty tree, a [remove] whose box the root's bounds contains
    never returns [false], whether or not any leaf matches the payload: with
    fuel from [remove_fuel] on, the call finishes, and it returns [true] or
    stops on a fault (a failed assertion or a null dereference). *)
Theorem remove_contained_returns_true
    (fuel : nat) (t : AABBTree U) (bnds : Box) (data : U) :
  empty t = false ->
  root_contains t bnds = true ->
  remove_fuel (m_root t) <= fuel ->
  (exists t', remove EQ NDEBUG fuel t bnds data = Ok (t', true)) \/
  faulted (remove EQ NDEBUG fuel t bnds data) = true.
Proof.
  intros He Hc Hf.
  destruct (remove_total EQ NDEBUG fuel t bnds data Hf) as [_ F].
  revert F. unfold remove, root_contains in *. rewrite He.
  destruct (bounds (m_root t)) as [rb | | | ]; try discriminate.
  simpl. rewrite Hc.
  destruct (Node_remove EQ NDEBUG fuel (m_root t) bnds data) as [[self newRoot] | | | ];
    simpl; auto; try (intros F; contradiction F; reflexivity).
  destruct (assert NDEBUG _) as [[] | | | ]; simpl; eauto;
    intros F; contradiction F; reflexivity.
Qed.

End Claims.

(** ** The claims on the one-dimensional instance *)

(** C1, evaluated.  [remove] with a payload that no leaf carries returns
    [true]: on a single leaf the tree is kept, on [two_leaves] the whole
    tree is destroyed. *)
Theorem remove_without_match_reports_removal (NDEBUG : bool) (fuel : nat) :
  has_match Nat.eqb (Leaf (Iv 0 1) 1) 5 = false /\
  remove Nat.eqb NDEBUG (S fuel) (mkAABBTree (Leaf (Iv 0 1) 1)) (Iv 0 1) 5
    = Ok (mkAABBTree (Leaf (Iv 0 1) 1), true) /\
  run NDEBUG [Insert 0 1 1; Insert 2 3 2] = Ok two_leaves /\
  has_match Nat.eqb (m_root two_leaves) 5 = false /\
  remove Nat.eqb NDEBUG (S (S fuel)) two_leaves (Iv 0 1) 5
    = Ok (new_AABBTree nat, true).
Proof.
  destruct NDEBUG; repeat split; reflexivity.
Qed.

(** C2, evaluated.  Nine inserts give [nine_leaves], on which I1, I2 and I3
    hold.  Removing the leaf with box [17,20] and payload 2 leaves a root
    whose balance is -2; with assertions enabled the call stops on the
    balance assertion of [AABBTree::remove].  Ten inserts alone leave a root
    whose balance is 2, and the tenth stops on the assertion of
    [AABBTree::insert]. *)
Theorem balance_bound_broken :
  (forall NDEBUG, run NDEBUG nine_leaves_ops = Ok nine_leaves) /\
  (bounds_correct (m_root nine_leaves) /\
   height_correct (m_root nine_leaves) /\
   balanced (m_root nine_leaves)) /\
  run true (nine_leaves_ops ++ [Remove 17 20 2]) = Ok unbalanced_by_remove /\
  balance (m_root unbalanced_by_remove) = Ok (-2)%Z /\
  ~ balanced (m_root unbalanced_by_remove) /\
  run false (nine_leaves_ops ++ [Remove 17 20 2]) = AssertFail /\
  run true ten_inserts = Ok unbalanced_by_insert /\
  balance (m_root unbalanced_by_insert) = Ok 2%Z /\
  ~ balanced (m_root unbalanced_by_insert) /\
  faulted (run false (removelast ten_inserts)) = false /\
  run false ten_inserts = AssertFail.
Proof.
  split; [intros []; vm_compute; reflexivity | ].
  split; [vm_compute; intuition (auto; discriminate) | ].
  repeat split; try (vm_compute; reflexivity);
    intros [H _]; vm_compute in H; apply H; reflexivity.
Qed.

(** C3, evaluated.  After six inserts the bounds of the root is [0,21] while
    the merge of its children's bounds is [0,12]: the leaves [0,1] and
    [20,21] are gone and the leaf [0,12] is in the tree twice. *)
Theorem bounds_invariant_broken (NDEBUG : bool) :
  run NDEBUG stale_bounds_ops = Ok stale_bounds_tree /\
  bounds (m_root stale_bounds_tree) = Ok (Iv 0 21) /\
  (lb <- bounds (get Left (m_root stale_bounds_tree)) ;;
   rb <- bounds (get Right (m_root stale_bounds_tree)) ;;
   Ok (mergedWith lb rb)) = Ok (Iv 0 12) /\
  ~ bounds_correct (m_root stale_bounds_tree) /\
  map snd (leaves (m_root stale_bounds_tree)) = [2; 6; 4; 6; 7].
Proof.
  destruct NDEBUG; repeat split; try (vm_compute; reflexivity);
    intros [H _]; vm_compute in H; discriminate H.
Qed.

(** C4, evaluated.  After the inserts of [0,1], [2,3], [10,11] and [4,5] the
    cached height of the root is 4 while both children have height 2. *)
Theorem height_invariant_broken (NDEBUG : bool) :
  run NDEBUG stale_height_ops = Ok stale_height_tree /\
  height (m_root stale_height_tree) = Ok 4%N /\
  height (get Left (m_root stale_height_tree)) = Ok 2%N /\
  height (get Right (m_root stale_height_tree)) = Ok 2%N /\
  ~ height_correct (m_root stale_height_tree).
Proof.
  destruct NDEBUG; repeat split; try (vm_compute; reflexivity);
    intros [H _]; vm_compute in H; discriminate H.
Qed.

(** C5, evaluated.  [four_leaves] is reached by four inserts and satisfies
    I1, I2 and I3.  Inserting the box [4,5] with payload 4 and removing the
    same pair returns [true] and leaves the empty tree: four leaves before,
    none after. *)
Theorem insert_remove_round_trip_broken (NDEBUG : bool) :
  run NDEBUG four_leaves_ops = Ok four_leaves /\
  (bounds_correct (m_root four_leaves) /\
   height_correct (m_root four_leaves) /\
   balanced (m_root four_leaves)) /\
  insert Nat.eqb NDEBUG (insert_fuel (m_root four_leaves)) four_leaves (Iv 4 5) 4
    = Ok five_leaves /\
  remove Nat.eqb NDEBUG (remove_fuel (m_root five_leaves)) five_leaves (Iv 4 5) 4
    = Ok (new_AABBTree nat, true) /\
  length (leaves (m_root four_leaves)) = 4 /\
  length (leaves (m_root (new_AABBTree nat))) = 0.
Proof.
  split; [destruct NDEBUG; vm_compute; reflexivity | ].
  split; [vm_compute; intuition (auto; discriminate) | ].
  destruct NDEBUG; repeat split; vm_compute; reflexivity.
Qed.

(** C8. The scenario: after the inserts of [A = [0,1]], [B = [2,3]] and
    [C = [10,11]] with payloads 1, 2, 3 the height of the tree is 3, between
    2 and 3, and the bounds of the root is [0,11]; removing [B] with payload
    2 returns [true] and leaves bounds [0,11] and height 2.  This holds in
    both builds and for every fuel from [remove_fuel] on. *)
Theorem scenario_three_boxes (NDEBUG : bool) (extra : nat) :
  let after_remove :=
    mkAABBTree (InnerNode (Iv 0 11) (Leaf (Iv 0 1) 1) (Leaf (Iv 10 11) 3) 2) in
  run NDEBUG scenario = Ok scenario_tree /\
  (exists h, tree_height scenario_tree = Ok h /\ (2 <= h <= 3)%N) /\
  tree_bounds NDEBUG scenario_tree = Ok (Iv 0 11) /\
  remove Nat.eqb NDEBUG (remove_fuel (m_root scenario_tree) + extra)
    scenario_tree (Iv 2 3) 2 = Ok (after_remove, true) /\
  tree_bounds NDEBUG after_remove = Ok (Iv 0 11) /\
  tree_height after_remove = Ok 2%N.
Proof.
  intros after_remove.
  split; [destruct NDEBUG; vm_compute; reflexivity | ].
  split; [exists 3%N; split; [reflexivity | lia] | ].
  split; [destruct NDEBUG; reflexivity | ].
  split; [ | split; [destruct NDEBUG; reflexivity | reflexivity]].
  rewrite (proj1 (remove_total Nat.eqb NDEBUG _ scenario_tree (Iv 2 3) 2
                    (Nat.le_add_r _ extra))).
  destruct NDEBUG; vm_compute; reflexivity.
Qed.

(** ** Instances of the general claims on concrete trees *)

(** C6 at [two_leaves]: the box [2,5] is not inside the root's [0,3]; the
    payload 2 is in the tree, yet nothing is removed. *)
Lemma remove_not_contained_witness :
  empty two_leaves = false /\
  root_contains two_leaves (Iv 2 5) = false /\
  remove Nat.eqb false 7 two_leaves (Iv 2 5) 2 = Ok (two_leaves, false).
Proof.
  split; [reflexivity | split; [reflexivity | ]].
  apply (@remove_not_contained IntervalOps nat Nat.eqb false 7 two_leaves (Iv 2 5) 2);
    reflexivity.
Defined.

(** C7 at the third insert of the scenario, where merging [10,11] grows the
    left leaf [0,1] by 10 and the right leaf [2,3] by 8, so the rule names
    the right child; and at the insert of [4,5] into [four_leaves], which
    descends left at the root and right below it and gives [five_leaves];
    and at a tie, where [0,12] grows both leaves [4,5] and [6,7] by 11 and
    the new leaf goes beside the left one. *)
Lemma insert_descends_witness :
  (bounds (get Left (m_root two_leaves)) = Ok (Iv 0 1) /\
   bounds (get Right (m_root two_leaves)) = Ok (Iv 2 3) /\
   least_increaser (volume_increase (Iv 0 1) (Iv 10 11))
                   (volume_increase (Iv 2 3) (Iv 10 11)) = Some Right /\
   Node_insert Nat.eqb false 3 (m_root two_leaves) (Iv 10 11) 3
     = insert_into Nat.eqb false 2 Right (m_root two_leaves) (Iv 10 11) 3) /\
  (spec_insert (m_root four_leaves) (Iv 4 5) 4 = Some (m_root five_leaves) /\
   insert_fuel (m_root four_leaves) <= 40 /\
   Node_insert Nat.eqb false 40 (m_root four_leaves) (Iv 4 5) 4
     = Ok (m_root five_leaves)) /\
  (least_increaser (volume_increase (Iv 4 5) (Iv 0 12))
                   (volume_increase (Iv 6 7) (Iv 0 12)) = Some Left /\
   Node_insert Nat.eqb false 40
     (InnerNode (Iv 4 7) (Leaf (Iv 4 5) 4) (Leaf (Iv 6 7) 7) 2) (Iv 0 12) 6
     = Ok (InnerNode (Iv 0 12)
             (InnerNode (Iv 0 12) (Leaf (Iv 4 5) 4) (Leaf (Iv 0 12) 6) 2)
             (Leaf (Iv 6 7) 7) 3)).
Proof.
  assert (Hf : insert_fuel (m_root four_leaves) <= 40)
    by (apply Nat.leb_le; reflexivity).
  split.
  - repeat (split; [reflexivity | ]).
    exact (proj1 (@insert_descends_into_least_increaser IntervalOps nat Nat.eqb false)
             2 (Iv 0 3) (@Leaf IntervalOps nat (Iv 0 1) 1)
             (@Leaf IntervalOps nat (Iv 2 3) 2) 2%N (Iv 10 11) 3
             (Iv 0 1) (Iv 2 3) Right eq_refl eq_refl eq_refl).
  - split.
    + split; [reflexivity | split; [exact Hf | ]].
      exact (proj2 (@insert_descends_into_least_increaser IntervalOps nat Nat.eqb false)
               (m_root four_leaves) (m_root five_leaves) (Iv 4 5) 4 40 eq_refl Hf).
    + split; [reflexivity | ].
      apply (proj2 (@insert_descends_into_least_increaser IntervalOps nat Nat.eqb false));
        [reflexivity | apply Nat.leb_le; reflexivity].
Defined.

(** C9: with assertions enabled, [bounds()] on a freshly constructed tree
    stops on [assert(!empty())] and returns no box. *)
Lemma bounds_of_empty_tree_asserts :
  tree_bounds false (new_AABBTree nat) = AssertFail /\
  tree_bounds false (new_AABBTree nat) <> Ok EmptyBox.
Proof.
  split; [reflexivity | discriminate].
Defined.

(** C9, amended, at the single leaf [0,1] with payload 1. *)
Lemma empty_tree_queries_witness :
  3 <> 0 /\
  contains (Iv 0 1) (Iv 0 1) = true /\
  Nat.eqb 1 1 = true /\
  exists t',
    remove Nat.eqb true 3 (mkAABBTree (Leaf (Iv 0 1) 1)) (Iv 0 1) 1 = Ok (t', true) /\
    empty t' = true /\
    tree_height t' = Ok 0%N /\
    tree_bounds true t' = Ok EmptyBox.
Proof.
  split; [discriminate | split; [reflexivity | split; [reflexivity | ]]].
  apply (proj2 (@empty_tree_queries IntervalOps nat Nat.eqb true) 3 (Iv 0 1) 1 (Iv 0 1) 1);
    [discriminate | reflexivity | reflexivity].
Defined.

(** C10, evaluated.  A [remove] whose box the root's bounds contains does
    not always return [true].  With assertions enabled, on [nine_leaves]
    (root bounds [1,21]) the call for the box [17,20] stops on the balance
    assertion of [AABBTree::remove], the root being left with balance -2.
    With assertions compiled out, nine inserts leave a root whose left child
    is null, and the call for the box [4,7] dereferences it. *)
Lemma remove_contained_stops :
  (run false nine_leaves_ops = Ok nine_leaves /\
   empty nine_leaves = false /\
   root_contains nine_leaves (Iv 17 20) = true /\
   remove Nat.eqb false (remove_fuel (m_root nine_leaves)) nine_leaves (Iv 17 20) 2
     = AssertFail) /\
  (run true null_child_ops = Ok null_child_tree /\
   empty null_child_tree = false /\
   root_contains null_child_tree (Iv 4 7) = true /\
   remove Nat.eqb true (remove_fuel (m_root null_child_tree)) null_child_tree (Iv 4 7) 3
     = NullDeref).
Proof.
  repeat split; vm_compute; reflexivity.
Qed.

(** X21 at a single leaf whose payload does not match: the call returns
    [true]. *)
Lemma remove_contained_returns_true_witness :
  empty (mkAABBTree (Leaf (Iv 0 1) 1)) = false /\
  root_contains (mkAABBTree (Leaf (Iv 0 1) 1)) (Iv 0 1) = true /\
  remove_fuel (Leaf (Iv 0 1) 1) <= 3 /\
  ((exists t', remove Nat.eqb true 3 (mkAABBTree (Leaf (Iv 0 1) 1)) (Iv 0 1) 5
               = Ok (t', true)) \/
   faulted (remove Nat.eqb true 3 (mkAABBTree (Leaf (Iv 0 1) 1)) (Iv 0 1) 5) = true).
Proof.
  split; [reflexivity | split; [reflexivity | split; [apply le_n | ]]].
  apply (@remove_contained_returns_true IntervalOps nat Nat.eqb true 3
           (mkAABBTree (@Leaf IntervalOps nat (Iv 0 1) 1)) (Iv 0 1) 5);
    [reflexivity | reflexivity | apply le_n].
Defined.

(** ** Further properties of the operations *)

Section CachedFields.

Context {BB : BBoxOps} {U : Type}.
Variable NDEBUG : bool.
Variable ins : Node U -> Box -> U -> Outcome (Node U).
Variable rem : Node U -> Box -> U -> Outcome (Node U * Ret U).

Lemma bounds_set (s : Slot) (n c : Node U) : bounds (set s n c) = bounds n.
Proof. destruct n, s; reflexivity. Qed.

Lemma height_set (s : Slot) (n c : Node U) : height (set s n c) = height n.
Proof. destruct n, s; reflexivity. Qed.

Lemma updateHeight_bounds (n n' : Node U) :
  updateHeight NDEBUG n = Ok n' -> bounds n' = bounds n.
Proof.
  destruct n; simpl; intros H; inv_bind; subst; reflexivity.
Qed.

Lemma rebalance_cached (n n' : Node U) :
  rebalance ins rem n = Ok n' -> bounds n' = bounds n /\ height n' = height n.
Proof.
  unfold rebalance, rebalance2; cbv zeta; intros H; inv_bind.
  destruct (_ && _)%bool; [ | destruct (_ && _)%bool].
  - inv_bind. subst. rewrite !bounds_set, !height_set. auto.
  - inv_bind. subst. rewrite !bounds_set, !height_set. auto.
  - injection H as <-. auto.
Qed.

End CachedFields.

Section Operations.

Context {BB : BBoxOps} {U : Type}.
Variable EQ : U -> U -> bool.
Variable NDEBUG : bool.

Lemma Node_insert_inner (fuel : nat) (n n' : Node U) (b : Box) (d : U) :
  Node_insert EQ NDEBUG fuel n b d = Ok n' -> is_inner n' = true.
Proof.
  destruct fuel as [ | fuel]; [discriminate | ].
  destruct (Node_sizes EQ NDEBUG fuel) as [Si Sr].
  destruct n; simpl; intros H; try discriminate.
  - unfold Leaf_insert, new_InnerNode in H. inv_bind. subst. reflexivity.
  - unfold InnerNode_insert in H. cbv zeta in H. inv_bind.
    apply updateBounds_Ok in E1; destruct E1 as (_ & I1 & _).
    apply updateHeight_Ok in E2; destruct E2 as (_ & I2 & _).
    apply (rebalance_size _ _ Si Sr) in H; [tauto | ].
    rewrite I2, I1. destruct a; reflexivity.
Qed.

(** X1. [AABBTree::insert] terminates on every tree, also a damaged one:
    fuel [insert_fuel] is enough, and from there on the outcome does not
    depend on the fuel. *)
Theorem insert_terminates (fuel : nat) (t : AABBTree U) (b : Box) (d : U) :
  insert_fuel (m_root t) <= fuel ->
  insert EQ NDEBUG fuel t b d = insert EQ NDEBUG (insert_fuel (m_root t)) t b d /\
  insert EQ NDEBUG fuel t b d <> OutOfFuel.
Proof. intros H. exact (insert_total EQ NDEBUG fuel t b d H). Qed.

(** X2. [AABBTree::remove] terminates on every tree: fuel [remove_fuel] is
    enough, and from there on the outcome does not depend on the fuel. *)
Theorem remove_terminates (fuel : nat) (t : AABBTree U) (b : Box) (d : U) :
  remove_fuel (m_root t) <= fuel ->
  remove EQ NDEBUG fuel t b d = remove EQ NDEBUG (remove_fuel (m_root t)) t b d /\
  remove EQ NDEBUG fuel t b d <> OutOfFuel.
Proof. intros H. exact (remove_total EQ NDEBUG fuel t b d H). Qed.

(** X3. An [insert] that returns has added at most one leaf and one inner
    node: the size (a leaf counts 1, an inner node 2) grows by at most 3,
    whatever rebalancing did. *)
Theorem insert_size_bound (fuel : nat) (t t' : AABBTree U) (b : Box) (d : U) :
  insert EQ NDEBUG fuel t b d = Ok t' ->
  size (m_root t') <= size (m_root t) + 3.
Proof.
  unfold insert. intros H. inv_bind. subst t'.
  destruct (empty t).
  - injection E as <-. simpl. lia.
  - inv_bind. subst a. simpl.
    exact (proj1 (Node_sizes EQ NDEBUG fuel) _ _ _ _ E1).
Qed.

(** X4. A [remove] that returns never leaves a larger tree, whether it
    reports [true] or [false] and whatever rebalancing did. *)
Theorem remove_never_grows (fuel : nat) (t t' : AABBTree U) (b : Box) (d : U) (r : bool) :
  remove EQ NDEBUG fuel t b d = Ok (t', r) ->
  size (m_root t') <= size (m_root t).
Proof.
  unfold remove. intros H.
  destruct (empty t); [injection H as <- _; lia | ].
  inv_bind. destruct (contains a b); [ | injection H as <- _; lia].
  inv_bind. subst t'. simpl.
  destruct (proj2 (Node_sizes EQ NDEBUG fuel) _ _ _ _ _ E0) as [Hs Hp].
  destruct r0 as [ | p]; simpl; [exact Hs | ].
  destruct Hp as [-> | Hp]; simpl; lia.
Qed.

(** X5. After an [insert] that returns the tree is not empty, and if it was
    not empty before, its root is an inner node. *)
Theorem insert_not_empty (fuel : nat) (t t' : AABBTree U) (b : Box) (d : U) :
  insert EQ NDEBUG fuel t b d = Ok t' ->
  empty t' = false /\ (empty t = false -> is_inner (m_root t') = true).
Proof.
  unfold insert. intros H. inv_bind. subst t'.
  destruct (empty t).
  - injection E as <-. split; [reflexivity | discriminate].
  - inv_bind. subst a. apply Node_insert_inner in E1.
    unfold empty. simpl. destruct a1; try discriminate. auto.
Qed.

(** X6. A [remove] that returns [false] has not touched the tree, and it does
    so only when the tree is empty or the root's bounds does not contain the
    box. *)
Theorem remove_false_unchanged (fuel : nat) (t t' : AABBTree U) (b : Box) (d : U) :
  remove EQ NDEBUG fuel t b d = Ok (t', false) ->
  t' = t /\ (empty t = true \/ root_contains t b = false).
Proof.
  unfold remove, root_contains. intros H.
  destruct (empty t); [injection H as <-; auto | ].
  destruct (bounds (m_root t)) as [rb | | | ]; simpl in H; try discriminate.
  destruct (contains rb b); [ | injection H as <-; auto].
  exfalso. inv_bind; discriminate.
Qed.

(** X8. [rebalance] moves leaves between the children but never writes the
    node's own cached bounds and height: they are what [updateBounds] and
    [updateHeight] computed before the leaf was moved. *)
Theorem rebalance_keeps_cached_fields (fuel : nat) (n n' : Node U) :
  rebalance (Node_insert EQ NDEBUG fuel) (Node_remove EQ NDEBUG fuel) n = Ok n' ->
  bounds n' = bounds n /\ height n' = height n.
Proof. apply rebalance_cached. Qed.

Section BoxLaws.

(** The contract of the box type: a box contains itself, and a merge
    contains what either operand contains. *)
Hypothesis contains_refl : forall x : Box, contains x x = true.
Hypothesis merge_left :
  forall x y z : Box, contains x z = true -> contains (mergedWith x y) z = true.
Hypothesis merge_right :
  forall x y z : Box, contains y z = true -> contains (mergedWith x y) z = true.

Lemma Node_insert_contains (fuel : nat) (n n' : Node U) (b : Box) (d : U) :
  Node_insert EQ NDEBUG fuel n b d = Ok n' ->
  exists nb, bounds n' = Ok nb /\ contains nb b = true.
Proof.
  revert n n'. induction fuel as [ | fuel IH]; intros n n' H; [discriminate | ].
  destruct n; simpl in H; try discriminate.
  - unfold Leaf_insert, new_InnerNode in H. inv_bind. subst n'. simpl.
    eexists; split; [reflexivity | ]. apply merge_right, contains_refl.
  - unfold InnerNode_insert in H. cbv zeta in H. inv_bind.
    apply IH in E0. destruct E0 as (ab & Eab & Hab).
    apply updateHeight_bounds in E2.
    apply rebalance_cached in H. destruct H as [Hb _].
    rewrite Hb, E2.
    destruct a; simpl in E1; inv_bind; subst a1; simpl;
      eexists; (split; [reflexivity | ]).
    + apply merge_left. congruence.
    + apply merge_right. congruence.
Qed.

(** X7. With a lawful box type, after [insert(b, d)] returns, the bounds of
    the root contains [b], also when rebalancing has moved or lost leaves. *)
Theorem insert_root_contains (fuel : nat) (t t' : AABBTree U) (b : Box) (d : U) :
  insert EQ NDEBUG fuel t b d = Ok t' ->
  root_contains t' b = true.
Proof.
  unfold insert, root_contains. intros H. inv_bind. subst t'.
  destruct (empty t).
  - injection E as <-. simpl. apply contains_refl.
  - inv_bind. subst a. simpl.
    apply Node_insert_contains in E1. destruct E1 as (nb & -> & Hc). exact Hc.
Qed.

(** X17. With a lawful box type, a [remove(b, d)] right after an
    [insert(b, d)] never returns [false]: it returns [true] or stops on a
    fault. *)
Theorem insert_then_remove_not_false
    (fuel fuel' : nat) (t t' : AABBTree U) (b : Box) (d : U) :
  insert EQ NDEBUG fuel t b d = Ok t' ->
  remove_fuel (m_root t') <= fuel' ->
  (exists t'', remove EQ NDEBUG fuel' t' b d = Ok (t'', true)) \/
  faulted (remove EQ NDEBUG fuel' t' b d) = true.
Proof.
  intros Hi Hf.
  assert (Ht : empty t' = false /\ root_contains t' b = true).
  { unfold insert in Hi. inv_bind. subst t'. destruct (empty t).
    - injection E as <-. split; [reflexivity | ].
      unfold root_contains. simpl. apply contains_refl.
    - inv_bind. subst a.
      pose proof (Node_insert_inner _ _ _ _ _ E1) as Hi.
      apply Node_insert_contains in E1. destruct E1 as (nb & Eb & Hc).
      unfold empty, root_contains. simpl. rewrite Eb.
      destruct a1; try discriminate. auto. }
  destruct Ht as [He Hc].
  destruct (remove_total EQ NDEBUG fuel' t' b d Hf) as [_ F].
  revert F. unfold remove, root_contains in *. rewrite He.
  destruct (bounds (m_root t')) as [rb | | | ]; try discriminate.
  simpl. rewrite Hc.
  destruct (Node_remove EQ NDEBUG fuel' (m_root t') b d) as [[self newRoot] | | | ];
    simpl; auto; try (intros F; contradiction F; reflexivity).
  destruct (assert NDEBUG _) as [[] | | | ]; simpl; eauto;
    intros F; contradiction F; reflexivity.
Qed.

End BoxLaws.

End Operations.

(** ** The rebalance candidate *)

Section Candidate.

Context {BB : BBoxOps} {U : Type}.

(** X9. [findRebalanceCandidate] visits the whole subtree: it dereferences a
    null pointer exactly when the subtree has one, and otherwise returns the
    bounds and data of one of the leaves of the subtree. *)
Theorem findRebalanceCandidate_leaf (n : Node U) (bnds : Box) :
  if null_free n
  then exists c, findRebalanceCandidate n bnds = Ok c /\ In c (leaves n)
  else findRebalanceCandidate n bnds = NullDeref.
Proof.
  induction n as [ | b d | b l IHl r IHr h]; simpl.
  - reflexivity.
  - eexists; split; [reflexivity | left; reflexivity].
  - destruct (null_free l); simpl.
    + destruct IHl as (cl & -> & Hl). simpl.
      destruct (null_free r).
      * destruct IHr as (cr & -> & Hr). simpl.
        destruct selectLeastIncreaserBox; eexists; (split; [reflexivity | ]);
          apply in_or_app; auto.
      * rewrite IHr. reflexivity.
    + rewrite IHl. reflexivity.
Qed.

(** X10. When the [<=] of [T] is total and transitive, the leaf that
    [findRebalanceCandidate] returns is one whose own volume grows least when
    merged with the given bounds, among all leaves of the subtree. *)
Theorem findRebalanceCandidate_least (n : Node U) (bnds : Box) (c : Box * U) :
  (forall x y : T, Tleb x y = true \/ Tleb y x = true) ->
  (forall x y z : T, Tleb x y = true -> Tleb y z = true -> Tleb x z = true) ->
  findRebalanceCandidate n bnds = Ok c ->
  forall leaf, In leaf (leaves n) ->
    Tleb (volume_increase (fst c) bnds) (volume_increase (fst leaf) bnds) = true.
Proof.
  intros Htotal Htrans. revert c.
  induction n as [ | b d | b l IHl r IHr h]; simpl; intros c H leaf Hin.
  - discriminate.
  - injection H as <-. destruct Hin as [<- | []]. simpl.
    destruct (Htotal (volume_increase b bnds) (volume_increase b bnds)); assumption.
  - inv_bind. unfold selectLeastIncreaserBox in H.
    fold (volume_increase (fst a) bnds) (volume_increase (fst a0) bnds) in H.
    specialize (IHl _ eq_refl). specialize (IHr _ eq_refl).
    destruct (Tleb (volume_increase (fst a) bnds) (volume_increase (fst a0) bnds)) eqn:Hle;
      injection H as <-; apply in_app_or in Hin; destruct Hin as [Hin | Hin]; auto.
    + eapply Htrans; [exact Hle | auto].
    + destruct (Htotal (volume_increase (fst a) bnds) (volume_increase (fst a0) bnds))
        as [Hc | Hc]; [congruence | ].
      eapply Htrans; [exact Hc | auto].
Qed.

End Candidate.

(** ** Removal near the root *)

Section NearRoot.

Context {BB : BBoxOps} {U : Type}.
Variable EQ : U -> U -> bool.
Variable NDEBUG : bool.

(** X11. When the left child of the root is a leaf that matches (its bounds
    contains the box and [EQ] accepts its payload), [remove] returns [true]
    and the right subtree, untouched, becomes the tree, provided it passes
    the balance assertion (as it always does when assertions are compiled
    out). *)
Theorem remove_left_leaf_promotes_sibling
    (fuel : nat) (b lb : Box) (ld : U) (r : Node U) (h : N) (bnds : Box) (data : U) :
  contains b bnds = true ->
  contains lb bnds = true ->
  EQ data ld = true ->
  r <> nullptr ->
  assert NDEBUG (root_balanced (mkAABBTree r)) = Ok tt ->
  remove EQ NDEBUG (S (S fuel)) (mkAABBTree (InnerNode b (Leaf lb ld) r h)) bnds data
    = Ok (mkAABBTree r, true).
Proof.
  intros Hb Hlb He Hr Ha.
  unfold remove; simpl. rewrite Hb.
  unfold InnerNode_remove, doRemove; simpl. rewrite Hlb.
  unfold Leaf_remove. rewrite He. simpl.
  destruct r as [ | rb rd | rb rl rr rh]; [contradiction | | ];
    simpl; unfold empty; simpl; rewrite Ha; reflexivity.
Qed.

(** X12. When the bounds of the left child does not contain the box and the
    right child of the root is a leaf that matches, [remove] returns [true]
    and the left subtree, untouched, becomes the tree, provided it passes the
    balance assertion. *)
Theorem remove_right_leaf_promotes_sibling
    (fuel : nat) (b lb rb : Box) (l : Node U) (rd : U) (h : N) (bnds : Box) (data : U) :
  contains b bnds = true ->
  bounds l = Ok lb ->
  contains lb bnds = false ->
  contains rb bnds = true ->
  EQ data rd = true ->
  assert NDEBUG (root_balanced (mkAABBTree l)) = Ok tt ->
  remove EQ NDEBUG (S (S fuel)) (mkAABBTree (InnerNode b l (Leaf rb rd) h)) bnds data
    = Ok (mkAABBTree l, true).
Proof.
  intros Hb Hl Hlb Hrb He Ha.
  unfold remove; simpl. rewrite Hb.
  unfold InnerNode_remove, doRemove; simpl. rewrite Hl. simpl. rewrite Hlb.
  simpl. rewrite Hrb. unfold Leaf_remove. rewrite He. simpl.
  destruct l as [ | xb xd | xb xl xr xh]; [discriminate | | ];
    simpl; unfold empty; simpl; rewrite Ha; reflexivity.
Qed.

(** X13. On a tree of two leaves, a [remove] whose box the root's bounds
    contains and whose payload matches neither leaf returns [true] and
    destroys both leaves: the tree is empty afterwards. *)
Theorem remove_two_leaves_without_match
    (fuel : nat) (b lb rb : Box) (ld rd : U) (h : N) (bnds : Box) (data : U) :
  contains b bnds = true ->
  EQ data ld = false ->
  EQ data rd = false ->
  remove EQ NDEBUG (S (S fuel))
    (mkAABBTree (InnerNode b (Leaf lb ld) (Leaf rb rd) h)) bnds data
    = Ok (new_AABBTree U, true).
Proof.
  intros Hb Hl Hr.
  unfold remove; simpl. rewrite Hb.
  unfold InnerNode_remove, doRemove, Leaf_remove, assert; simpl.
  destruct (contains lb bnds); simpl; rewrite ?Hl; simpl;
    destruct (contains rb bnds); simpl; rewrite ?Hr; simpl;
    destruct NDEBUG; reflexivity.
Qed.

(** X14. When the [remove] of the left subtree returns the subtree itself
    (it has removed a leaf further down) and the bounds of the right child
    does not contain the box, the root takes this for "not found" and
    [remove] returns [true] with the whole tree destroyed. *)
Theorem remove_below_left_child_destroys_tree
    (fuel : nat) (b lb rb : Box) (l l' r : Node U) (h : N) (bnds : Box) (data : U) :
  contains b bnds = true ->
  bounds l = Ok lb ->
  contains lb bnds = true ->
  Node_remove EQ NDEBUG fuel l bnds data = Ok (l', This) ->
  bounds r = Ok rb ->
  contains rb bnds = false ->
  remove EQ NDEBUG (S fuel) (mkAABBTree (InnerNode b l r h)) bnds data
    = Ok (new_AABBTree U, true).
Proof.
  intros Hb Hl Hlb Hrem Hr Hrb.
  unfold remove; simpl. rewrite Hb.
  unfold InnerNode_remove, doRemove; simpl.
  rewrite Hl. simpl. rewrite Hlb, Hrem. simpl.
  rewrite Hr. simpl. rewrite Hrb. simpl.
  unfold assert. destruct NDEBUG; reflexivity.
Qed.

(** X16. On a tree of one leaf, inserting a pair and removing it again gives
    the tree back and returns [true], provided the old leaf cannot be taken
    for the new one (its bounds does not contain the new box or [EQ] tells
    the payloads apart). *)
Theorem round_trip_single_leaf
    (fuel : nat) (lb : Box) (ld : U) (bnds : Box) (data : U) :
  contains bnds bnds = true ->
  contains (mergedWith lb bnds) bnds = true ->
  EQ data data = true ->
  contains lb bnds = false \/ EQ data ld = false ->
  exists t,
    insert EQ NDEBUG (S fuel) (mkAABBTree (Leaf lb ld)) bnds data = Ok t /\
    remove EQ NDEBUG (S (S fuel)) t bnds data = Ok (mkAABBTree (Leaf lb ld), true).
Proof.
  intros Hrefl Hm He Hold.
  exists (mkAABBTree (InnerNode (mergedWith lb bnds) (Leaf lb ld) (Leaf bnds data) 2)).
  split.
  - unfold insert, Node_insert, Leaf_insert, new_InnerNode, updateHeight, assert.
    simpl. destruct NDEBUG; reflexivity.
  - unfold remove; simpl. rewrite Hm.
    unfold InnerNode_remove, doRemove, Leaf_remove, assert; simpl.
    assert (Hleft : (if contains lb bnds then EQ data ld else false) = false)
      by (destruct Hold as [-> | ->]; [reflexivity | destruct (contains lb bnds); reflexivity]).
    destruct (contains lb bnds); simpl; rewrite ?Hleft; simpl;
      rewrite Hrefl; simpl; rewrite He; simpl;
      destruct NDEBUG; reflexivity.
Qed.

End NearRoot.

(** ** The textual dump writes one line per node *)

Section DumpFacts.

Context {BB : BBoxOps} {U : Type}.
Variable write_min : Box -> string.
Variable write_max : Box -> string.
Variable write_data : U -> string.
Hypothesis write_min_line : forall b, count_newlines (write_min b) = 0.
Hypothesis write_max_line : forall b, count_newlines (write_max b) = 0.
Hypothesis write_data_line : forall d, count_newlines (write_data d) = 0.

Lemma count_newlines_append (a b : string) :
  count_newlines (String.append a b) = count_newlines a + count_newlines b.
Proof.
  induction a as [ | c a IH]; simpl; [reflexivity | ]. rewrite IH. lia.
Qed.

Lemma count_newlines_indentation (indent : string) (level : nat) :
  count_newlines indent = 0 -> count_newlines (indentation indent level) = 0.
Proof.
  intros Hi. induction level as [ | level IH]; simpl; [reflexivity | ].
  rewrite count_newlines_append. lia.
Qed.

Lemma count_newlines_appendBounds (b : Box) :
  count_newlines (appendBounds write_min write_max b) = 0.
Proof.
  unfold appendBounds. rewrite !count_newlines_append.
  rewrite write_min_line, write_max_line. reflexivity.
Qed.

Lemma appendTo_lines (n : Node U) (indent : string) (level : nat) :
  count_newlines indent = 0 ->
  if null_free n
  then exists s, appendTo write_min write_max write_data n indent level = Ok s /\
                 count_newlines s = node_count n
  else appendTo write_min write_max write_data n indent level = NullDeref.
Proof.
  intros Hi. revert level.
  induction n as [ | b d | b l IHl r IHr h]; intros level;
    cbn [appendTo null_free node_count].
  - reflexivity.
  - eexists; split; [reflexivity | ].
    rewrite !count_newlines_append, count_newlines_indentation,
      count_newlines_appendBounds, write_data_line by exact Hi.
    reflexivity.
  - specialize (IHl (S level)). specialize (IHr (S level)).
    destruct (null_free l); cbn [andb].
    + destruct IHl as (sl & -> & Hl). cbn [bind].
      destruct (null_free r).
      * destruct IHr as (sr & -> & Hr). cbn [bind].
        eexists; split; [reflexivity | ].
        rewrite !count_newlines_append, count_newlines_indentation,
          count_newlines_appendBounds, Hl, Hr by exact Hi.
        simpl. lia.
      * rewrite IHr. reflexivity.
    + rewrite IHl. reflexivity.
Qed.

(** X18. When the renderings of corners and payloads contain no line end,
    [print] writes nothing for the empty tree, exactly one line per node for
    a tree without null children, and dereferences a null pointer
    otherwise. *)
Theorem print_one_line_per_node (t : AABBTree U) :
  if empty t then print write_min write_max write_data t = Ok EmptyString
  else if null_free (m_root t)
  then exists s, print write_min write_max write_data t = Ok s /\
                 count_newlines s = node_count (m_root t)
  else print write_min write_max write_data t = NullDeref.
Proof.
  unfold print. destruct (empty t); simpl; [reflexivity | ].
  apply appendTo_lines. reflexivity.
Qed.

End DumpFacts.

(** The decimal renderings of the instance contain no line end. *)
Lemma string_of_uint_line (d : Decimal.uint) :
  count_newlines (DecimalString.NilEmpty.string_of_uint d) = 0.
Proof. induction d; simpl; auto. Qed.

Lemma NilZero_string_of_uint_line (d : Decimal.uint) :
  count_newlines (DecimalString.NilZero.string_of_uint d) = 0.
Proof. destruct d; simpl; auto using string_of_uint_line. Qed.

Lemma NilZero_string_of_int_line (d : Decimal.int) :
  count_newlines (DecimalString.NilZero.string_of_int d) = 0.
Proof. destruct d; simpl; auto using NilZero_string_of_uint_line. Qed.

Lemma Interval_write_min_line (b : Interval) : count_newlines (Interval_write_min b) = 0.
Proof. destruct b; simpl; auto using NilZero_string_of_int_line. Qed.

Lemma Interval_write_max_line (b : Interval) : count_newlines (Interval_write_max b) = 0.
Proof. destruct b; simpl; auto using NilZero_string_of_int_line. Qed.

Lemma nat_write_data_line (d : nat) : count_newlines (nat_write_data d) = 0.
Proof. apply NilZero_string_of_uint_line. Qed.

(** The box laws hold for [ZBoxOps]. *)
Lemma ZBox_contains_refl (x : Z * Z) : ZBox_contains x x = true.
Proof.
  unfold ZBox_contains. apply andb_true_intro; split; apply Z.leb_refl.
Qed.

Lemma ZBox_merge_left (x y z : Z * Z) :
  ZBox_contains x z = true -> ZBox_contains (ZBox_mergedWith x y) z = true.
Proof.
  unfold ZBox_contains, ZBox_mergedWith. simpl. intros H.
  apply andb_prop in H. destruct H as [H1 H2].
  apply Z.leb_le in H1, H2.
  apply andb_true_intro; split; apply Z.leb_le; lia.
Qed.

Lemma ZBox_merge_right (x y z : Z * Z) :
  ZBox_contains y z = true -> ZBox_contains (ZBox_mergedWith x y) z = true.
Proof.
  unfold ZBox_contains, ZBox_mergedWith. simpl. intros H.
  apply andb_prop in H. destruct H as [H1 H2].
  apply Z.leb_le in H1, H2.
  apply andb_true_intro; split; apply Z.leb_le; lia.
Qed.

Lemma Zleb_total (x y : Z) : Z.leb x y = true \/ Z.leb y x = true.
Proof. destruct (Z.leb_spec x y); [left; reflexivity | right; apply Z.leb_le; lia]. Qed.

Lemma Zleb_trans (x y z : Z) : Z.leb x y = true -> Z.leb y z = true -> Z.leb x z = true.
Proof. intros H1 H2. apply Z.leb_le in H1, H2. apply Z.leb_le. lia. Qed.

(** ** Instances of the further properties *)

(** X1 at [scenario_tree]. *)
Lemma insert_terminates_witness :
  insert_fuel (m_root scenario_tree) <= 20 /\
  insert Nat.eqb false 20 scenario_tree (Iv 4 5) 4
    = insert Nat.eqb false (insert_fuel (m_root scenario_tree)) scenario_tree (Iv 4 5) 4 /\
  insert Nat.eqb false 20 scenario_tree (Iv 4 5) 4 <> OutOfFuel.
Proof.
  assert (H : insert_fuel (m_root scenario_tree) <= 20)
    by (apply Nat.leb_le; reflexivity).
  split; [exact H | ].
  exact (@insert_terminates IntervalOps nat Nat.eqb false 20 scenario_tree (Iv 4 5) 4 H).
Defined.

(** X2 at [five_leaves]. *)
Lemma remove_terminates_witness :
  remove_fuel (m_root five_leaves) <= 40 /\
  remove Nat.eqb false 40 five_leaves (Iv 4 5) 4
    = remove Nat.eqb false (remove_fuel (m_root five_leaves)) five_leaves (Iv 4 5) 4 /\
  remove Nat.eqb false 40 five_leaves (Iv 4 5) 4 <> OutOfFuel.
Proof.
  assert (H : remove_fuel (m_root five_leaves) <= 40)
    by (apply Nat.leb_le; reflexivity).
  split; [exact H | ].
  exact (@remove_terminates IntervalOps nat Nat.eqb false 40 five_leaves (Iv 4 5) 4 H).
Defined.

(** X3 at the fourth insert of [stale_height_ops]. *)
Lemma insert_size_bound_witness :
  insert Nat.eqb false 20 scenario_tree (Iv 4 5) 4 = Ok stale_height_tree /\
  size (m_root stale_height_tree) <= size (m_root scenario_tree) + 3.
Proof.
  assert (H : insert Nat.eqb false 20 scenario_tree (Iv 4 5) 4 = Ok stale_height_tree)
    by (vm_compute; reflexivity).
  split; [exact H | ].
  exact (@insert_size_bound IntervalOps nat Nat.eqb false 20 _ _ _ _ H).
Defined.

(** X4 at [nine_leaves]: the remove drops two leaves and keeps the one it was
    asked to remove. *)
Lemma remove_never_grows_witness :
  remove Nat.eqb true 60 nine_leaves (Iv 17 20) 2 = Ok (unbalanced_by_remove, true) /\
  size (m_root unbalanced_by_remove) <= size (m_root nine_leaves).
Proof.
  assert (H : remove Nat.eqb true 60 nine_leaves (Iv 17 20) 2
              = Ok (unbalanced_by_remove, true))
    by (vm_compute; reflexivity).
  split; [exact H | ].
  exact (@remove_never_grows IntervalOps nat Nat.eqb true 60 _ _ _ _ _ H).
Defined.

(** X5 at the fourth insert of [stale_height_ops]. *)
Lemma insert_not_empty_witness :
  insert Nat.eqb false 20 scenario_tree (Iv 4 5) 4 = Ok stale_height_tree /\
  empty stale_height_tree = false /\
  (empty scenario_tree = false -> is_inner (m_root stale_height_tree) = true).
Proof.
  assert (H : insert Nat.eqb false 20 scenario_tree (Iv 4 5) 4 = Ok stale_height_tree)
    by (vm_compute; reflexivity).
  split; [exact H | ].
  exact (@insert_not_empty IntervalOps nat Nat.eqb false 20 _ _ _ _ H).
Defined.

(** X6 at [two_leaves] and the box [2,5]. *)
Lemma remove_false_unchanged_witness :
  remove Nat.eqb false 7 two_leaves (Iv 2 5) 2 = Ok (two_leaves, false) /\
  two_leaves = two_leaves /\
  (empty two_leaves = true \/ root_contains two_leaves (Iv 2 5) = false).
Proof.
  assert (H : remove Nat.eqb false 7 two_leaves (Iv 2 5) 2 = Ok (two_leaves, false))
    by reflexivity.
  split; [exact H | ].
  exact (@remove_false_unchanged IntervalOps nat Nat.eqb false 7 _ _ _ _ H).
Defined.

(** X7 over [ZBoxOps]: after the insert of [(10,11)] the root's bounds
    [(0,11)] contains it. *)
Lemma insert_root_contains_witness :
  (forall x, @contains ZBoxOps x x = true) /\
  (forall x y z, @contains ZBoxOps x z = true ->
                 @contains ZBoxOps (@mergedWith ZBoxOps x y) z = true) /\
  (forall x y z, @contains ZBoxOps y z = true ->
                 @contains ZBoxOps (@mergedWith ZBoxOps x y) z = true) /\
  @insert ZBoxOps nat Nat.eqb false 9 zbox_two_leaves (10, 11)%Z 3 = Ok zbox_three_leaves /\
  @root_contains ZBoxOps nat zbox_three_leaves (10, 11)%Z = true.
Proof.
  assert (H : @insert ZBoxOps nat Nat.eqb false 9 zbox_two_leaves (10, 11)%Z 3
              = Ok zbox_three_leaves)
    by (vm_compute; reflexivity).
  split; [exact ZBox_contains_refl | ].
  split; [exact ZBox_merge_left | ].
  split; [exact ZBox_merge_right | ].
  split; [exact H | ].
  exact (@insert_root_contains ZBoxOps nat Nat.eqb false
           ZBox_contains_refl ZBox_merge_left ZBox_merge_right 9 _ _ _ _ H).
Defined.

(** X8 at the root of the fourth insert of [stale_height_ops]: the leaf
    [2,3] moves to the left, the cached height stays 4. *)
Lemma rebalance_keeps_cached_fields_witness :
  rebalance (Node_insert Nat.eqb false 9) (Node_remove Nat.eqb false 9) before_rebalance
    = Ok (m_root stale_height_tree) /\
  bounds (m_root stale_height_tree) = bounds before_rebalance /\
  height (m_root stale_height_tree) = height before_rebalance.
Proof.
  assert (H : rebalance (Node_insert Nat.eqb false 9) (Node_remove Nat.eqb false 9)
                before_rebalance = Ok (m_root stale_height_tree))
    by (vm_compute; reflexivity).
  split; [exact H | ].
  exact (@rebalance_keeps_cached_fields IntervalOps nat Nat.eqb false 9 _ _ H).
Defined.

(** X10 at [scenario_tree] and the bounds [4,5]: the candidate is the leaf
    [2,3], which grows by 2; the others grow by 4 and 6. *)
Lemma findRebalanceCandidate_least_witness :
  (forall x y : Z, Z.leb x y = true \/ Z.leb y x = true) /\
  (forall x y z : Z, Z.leb x y = true -> Z.leb y z = true -> Z.leb x z = true) /\
  findRebalanceCandidate (m_root scenario_tree) (Iv 4 5) = Ok (Iv 2 3, 2) /\
  forall leaf, In leaf (leaves (m_root scenario_tree)) ->
    Tleb (volume_increase (fst (Iv 2 3, 2)) (Iv 4 5)) (volume_increase (fst leaf) (Iv 4 5))
      = true.
Proof.
  split; [exact Zleb_total | ].
  split; [exact Zleb_trans | ].
  split; [reflexivity | ].
  exact (@findRebalanceCandidate_least IntervalOps nat (m_root scenario_tree) (Iv 4 5)
           (Iv 2 3, 2) Zleb_total Zleb_trans eq_refl).
Defined.

(** X11 at [two_leaves]: removing the left leaf leaves the right one. *)
Lemma remove_left_leaf_witness :
  contains (Iv 0 3) (Iv 0 1) = true /\
  contains (Iv 0 1) (Iv 0 1) = true /\
  Nat.eqb 1 1 = true /\
  @Leaf IntervalOps nat (Iv 2 3) 2 <> nullptr /\
  assert false (root_balanced (mkAABBTree (@Leaf IntervalOps nat (Iv 2 3) 2))) = Ok tt /\
  remove Nat.eqb false 2 two_leaves (Iv 0 1) 1
    = Ok (mkAABBTree (Leaf (Iv 2 3) 2), true).
Proof.
  assert (Hn : @Leaf IntervalOps nat (Iv 2 3) 2 <> nullptr) by discriminate.
  repeat (split; [first [reflexivity | exact Hn] | ]).
  exact (@remove_left_leaf_promotes_sibling IntervalOps nat Nat.eqb false 0
           (Iv 0 3) (Iv 0 1) 1 (@Leaf IntervalOps nat (Iv 2 3) 2) 2%N (Iv 0 1) 1
           eq_refl eq_refl eq_refl Hn eq_refl).
Defined.

(** X12 at [two_leaves]: removing the right leaf leaves the left one. *)
Lemma remove_right_leaf_witness :
  contains (Iv 0 3) (Iv 2 3) = true /\
  bounds (@Leaf IntervalOps nat (Iv 0 1) 1) = Ok (Iv 0 1) /\
  contains (Iv 0 1) (Iv 2 3) = false /\
  contains (Iv 2 3) (Iv 2 3) = true /\
  Nat.eqb 2 2 = true /\
  assert false (root_balanced (mkAABBTree (@Leaf IntervalOps nat (Iv 0 1) 1))) = Ok tt /\
  remove Nat.eqb false 2 two_leaves (Iv 2 3) 2
    = Ok (mkAABBTree (Leaf (Iv 0 1) 1), true).
Proof.
  repeat (split; [reflexivity | ]).
  exact (@remove_right_leaf_promotes_sibling IntervalOps nat Nat.eqb false 0
           (Iv 0 3) (Iv 0 1) (Iv 2 3) (@Leaf IntervalOps nat (Iv 0 1) 1) 2 2%N (Iv 2 3) 2
           eq_refl eq_refl eq_refl eq_refl eq_refl eq_refl).
Defined.

(** X13 at [two_leaves] and the payload 5. *)
Lemma remove_two_leaves_without_match_witness :
  contains (Iv 0 3) (Iv 0 1) = true /\
  Nat.eqb 5 1 = false /\
  Nat.eqb 5 2 = false /\
  remove Nat.eqb false 2 two_leaves (Iv 0 1) 5 = Ok (new_AABBTree nat, true).
Proof.
  repeat (split; [reflexivity | ]).
  exact (@remove_two_leaves_without_match IntervalOps nat Nat.eqb false 0
           (Iv 0 3) (Iv 0 1) (Iv 2 3) 1 2 2%N (Iv 0 1) 5 eq_refl eq_refl eq_refl).
Defined.

(** X14 at [five_leaves]: the left subtree removes the leaf [4,5] and returns
    itself, the tree is destroyed. *)
Lemma remove_below_left_child_witness :
  contains (Iv 0 21) (Iv 4 5) = true /\
  bounds (get Left (m_root five_leaves)) = Ok (Iv 0 5) /\
  contains (Iv 0 5) (Iv 4 5) = true /\
  Node_remove Nat.eqb false 9 (get Left (m_root five_leaves)) (Iv 4 5) 4
    = Ok (InnerNode (Iv 0 3) (Leaf (Iv 0 1) 1) (Leaf (Iv 2 3) 2) 2, This) /\
  bounds (get Right (m_root five_leaves)) = Ok (Iv 10 21) /\
  contains (Iv 10 21) (Iv 4 5) = false /\
  remove Nat.eqb false 10 five_leaves (Iv 4 5) 4 = Ok (new_AABBTree nat, true).
Proof.
  repeat (split; [reflexivity | ]).
  exact (@remove_below_left_child_destroys_tree IntervalOps nat Nat.eqb false 9
           (Iv 0 21) (Iv 0 5) (Iv 10 21)
           (get Left (m_root five_leaves))
           (InnerNode (Iv 0 3) (Leaf (Iv 0 1) 1) (Leaf (Iv 2 3) 2) 2)
           (get Right (m_root five_leaves)) 4%N (Iv 4 5) 4
           eq_refl eq_refl eq_refl eq_refl eq_refl eq_refl).
Defined.

(** X15 at the box [0,1] with payload 1. *)
Lemma insert_remove_from_empty_witness :
  3 <> 0 /\
  contains (Iv 0 1) (Iv 0 1) = true /\
  Nat.eqb 1 1 = true /\
  exists t,
    insert Nat.eqb false 3 (new_AABBTree nat) (Iv 0 1) 1 = Ok t /\
    remove Nat.eqb false 3 t (Iv 0 1) 1 = Ok (new_AABBTree nat, true).
Proof.
  assert (H3 : 3 <> 0) by discriminate.
  split; [exact H3 | ].
  repeat (split; [reflexivity | ]).
  exact (@insert_remove_from_empty IntervalOps nat Nat.eqb false 3 (Iv 0 1) 1
           H3 eq_refl eq_refl).
Defined.

(** X16 at the leaf [0,1] with payload 1 and the pair [2,3], 2. *)
Lemma round_trip_single_leaf_witness :
  contains (Iv 2 3) (Iv 2 3) = true /\
  contains (mergedWith (Iv 0 1) (Iv 2 3)) (Iv 2 3) = true /\
  Nat.eqb 2 2 = true /\
  (contains (Iv 0 1) (Iv 2 3) = false \/ Nat.eqb 2 1 = false) /\
  exists t,
    insert Nat.eqb false 1 (mkAABBTree (Leaf (Iv 0 1) 1)) (Iv 2 3) 2 = Ok t /\
    remove Nat.eqb false 2 t (Iv 2 3) 2 = Ok (mkAABBTree (Leaf (Iv 0 1) 1), true).
Proof.
  repeat (split; [reflexivity | ]).
  split; [left; reflexivity | ].
  exact (@round_trip_single_leaf IntervalOps nat Nat.eqb false 0 (Iv 0 1) 1 (Iv 2 3) 2
           eq_refl eq_refl eq_refl (or_introl eq_refl)).
Defined.

(** X17 over [ZBoxOps]: the remove right after the insert of [(10,11)]. *)
Lemma insert_then_remove_not_false_witness :
  @insert ZBoxOps nat Nat.eqb false 9 zbox_two_leaves (10, 11)%Z 3 = Ok zbox_three_leaves /\
  remove_fuel (m_root zbox_three_leaves) <= 20 /\
  ((exists t'', @remove ZBoxOps nat Nat.eqb false 20 zbox_three_leaves (10, 11)%Z 3
                = Ok (t'', true)) \/
   faulted (@remove ZBoxOps nat Nat.eqb false 20 zbox_three_leaves (10, 11)%Z 3) = true).
Proof.
  assert (H : @insert ZBoxOps nat Nat.eqb false 9 zbox_two_leaves (10, 11)%Z 3
              = Ok zbox_three_leaves)
    by (vm_compute; reflexivity).
  assert (Hf : remove_fuel (m_root zbox_three_leaves) <= 20)
    by (apply Nat.leb_le; reflexivity).
  split; [exact H | split; [exact Hf | ]].
  exact (@insert_then_remove_not_false ZBoxOps nat Nat.eqb false
           ZBox_contains_refl ZBox_merge_left ZBox_merge_right
           9 20 _ _ _ _ H Hf).
Defined.

(** X18 at [scenario_tree] with decimal renderings: five nodes, five lines. *)
Lemma print_one_line_per_node_witness :
  (forall b, count_newlines (Interval_write_min b) = 0) /\
  (forall b, count_newlines (Interval_write_max b) = 0) /\
  (forall d, count_newlines (nat_write_data d) = 0) /\
  exists s,
    print Interval_write_min Interval_write_max nat_write_data scenario_tree = Ok s /\
    count_newlines s = node_count (m_root scenario_tree).
Proof.
  split; [exact Interval_write_min_line | ].
  split; [exact Interval_write_max_line | ].
  split; [exact nat_write_data_line | ].
  exact (@print_one_line_per_node IntervalOps nat
           Interval_write_min Interval_write_max nat_write_data
           Interval_write_min_line Interval_write_max_line nat_write_data_line
           scenario_tree).
Defined.

(** ** No operation brings in a foreign box or payload *)

Section Leaves.

Context {BB : BBoxOps} {U : Type}.
Variable NDEBUG : bool.

Lemma findRebalanceCandidate_In (n : Node U) (bnds : Box) (c : Box * U) :
  findRebalanceCandidate n bnds = Ok c -> In c (leaves n).
Proof.
  revert c. induction n as [ | b d | b l IHl r IHr h]; simpl; intros c H.
  - discriminate.
  - injection H as <-. left; reflexivity.
  - inv_bind. apply in_or_app.
    destruct selectLeastIncreaserBox; injection H as <-; auto.
Qed.

Lemma leaves_updateBounds (n n' : Node U) :
  updateBounds n = Ok n' -> leaves n' = leaves n.
Proof. destruct n; simpl; intros H; inv_bind; subst; reflexivity. Qed.

Lemma leaves_updateHeight (n n' : Node U) :
  updateHeight NDEBUG n = Ok n' -> leaves n' = leaves n.
Proof. destruct n; simpl; intros H; inv_bind; subst; reflexivity. Qed.

Lemma leaves_get (s : Slot) (n : Node U) (x : Box * U) :
  In x (leaves (get s n)) -> In x (leaves n).
Proof.
  destruct n, s; simpl; intros H; try contradiction; apply in_or_app; auto.
Qed.

Lemma leaves_set (s : Slot) (n c : Node U) (x : Box * U) :
  In x (leaves (set s n c)) ->
  In x (leaves c) \/ In x (leaves (get (other s) n)) \/ is_inner n = false.
Proof.
  destruct n, s; simpl; intros H; auto; apply in_app_or in H; tauto.
Qed.

Variable ins : Node U -> Box -> U -> Outcome (Node U).
Variable rem : Node U -> Box -> U -> Outcome (Node U * Ret U).
Hypothesis Hins : forall n b d n' x,
  ins n b d = Ok n' -> In x (leaves n') -> In x (leaves n) \/ x = (b, d).
Hypothesis Hrem : forall n b d self r x,
  rem n b d = Ok (self, r) ->
  In x (leaves self) \/ In x (leaves (deref self r)) -> In x (leaves n).

Lemma rebalance2_leaves (higher : Slot) (n n' : Node U) (x : Box * U) :
  rebalance2 ins rem higher (other higher) n = Ok n' ->
  In x (leaves n') -> In x (leaves n).
Proof.
  unfold rebalance2; cbv zeta; intros H Hx; inv_bind. subst n'.
  assert (Hn : is_inner n = true)
    by (destruct n, higher; simpl in E; try discriminate; reflexivity).
  rewrite get_set_other in E2.
  apply findRebalanceCandidate_In in E0.
  apply leaves_set in Hx. rewrite is_inner_set in Hx.
  destruct Hx as [Hx | [Hx | Hx]]; [ | | congruence].
  - destruct (Hins _ _ _ _ _ E2 Hx) as [Hl | ->].
    + apply (leaves_get (other higher)). exact Hl.
    + apply (leaves_get higher). destruct a0; exact E0.
  - assert (Ho : other (other higher) = higher) by (destruct higher; reflexivity).
    rewrite Ho in Hx.
    assert (Hd : In x (leaves (deref n0 r)))
      by (destruct n, higher; simpl in *; try discriminate; exact Hx).
    apply (leaves_get higher). eapply Hrem; [exact E1 | right; exact Hd].
Qed.

Lemma rebalance_leaves (n n' : Node U) (x : Box * U) :
  rebalance ins rem n = Ok n' -> In x (leaves n') -> In x (leaves n).
Proof.
  unfold rebalance; intros H; inv_bind.
  destruct (_ && _)%bool; [apply (rebalance2_leaves Left); exact H | ].
  destruct (_ && _)%bool; [apply (rebalance2_leaves Right); exact H | ].
  injection H as <-. auto.
Qed.

Lemma InnerNode_insert_leaves (n n' : Node U) (b : Box) (d : U) (x : Box * U) :
  InnerNode_insert NDEBUG ins rem n b d = Ok n' ->
  In x (leaves n') -> In x (leaves n) \/ x = (b, d).
Proof.
  unfold InnerNode_insert; cbv zeta; intros H Hx; inv_bind.
  apply (rebalance_leaves _ _ _ H) in Hx.
  rewrite (leaves_updateHeight _ _ E2), (leaves_updateBounds _ _ E1) in Hx.
  apply leaves_set in Hx.
  destruct Hx as [Hx | [Hx | Hx]].
  - destruct (Hins _ _ _ _ _ E0 Hx) as [Hl | ->]; [left | right; reflexivity].
    eapply leaves_get; exact Hl.
  - left. eapply leaves_get; exact Hx.
  - destruct n; simpl in E; try discriminate.
Qed.

Lemma doRemove_leaves (n n' : Node U) (b : Box) (d : U) (child : Slot) (res : Ret U)
    (x : Box * U) :
  doRemove NDEBUG ins rem n b d child (other child) = Ok (n', res) ->
  In x (leaves n') \/ In x (leaves (deref n' res)) -> In x (leaves n).
Proof.
  unfold doRemove; intros H Hx; inv_bind.
  assert (Hn : is_inner n = true)
    by (destruct n, child; simpl in E; try discriminate; reflexivity).
  assert (Ho : other (other child) = child) by (destruct child; reflexivity).
  destruct (contains a b).
  2:{ injection H as <- <-. simpl in Hx. tauto. }
  inv_bind.
  assert (Hself : forall y, In y (leaves n0) \/ In y (leaves (deref n0 r)) ->
                            In y (leaves n))
    by (intros y Hy; apply (leaves_get child); eapply Hrem; eauto).
  destruct (is_null r) eqn:Hnull.
  - injection H as <- <-. simpl in Hx.
    destruct Hx as [Hx | Hx]; [ | eapply leaves_get; exact Hx].
    apply leaves_set in Hx. rewrite is_inner_set, Ho in Hx.
    destruct Hx as [Hx | [Hx | Hx]]; [contradiction | | congruence].
    assert (Hc : In x (leaves n0))
      by (destruct n, child; simpl in *; try discriminate; exact Hx).
    auto.
  - destruct r as [ | p].
    + injection H as <- <-. simpl in Hx.
      destruct Hx as [Hx | []].
      apply leaves_set in Hx.
      destruct Hx as [Hx | [Hx | Hx]]; [auto | | congruence].
      eapply leaves_get; exact Hx.
    + inv_bind. subst. simpl in Hx.
      assert (Hx' : In x (leaves n')) by tauto.
      apply (rebalance_leaves _ _ _ E3) in Hx'.
      rewrite (leaves_updateHeight _ _ E2), (leaves_updateBounds _ _ E1) in Hx'.
      apply leaves_set in Hx'.
      destruct Hx' as [Hp | [Hp | Hp]]; [ | | congruence].
      * apply Hself. right. exact Hp.
      * eapply leaves_get; exact Hp.
Qed.

Lemma InnerNode_remove_leaves (n self : Node U) (b : Box) (d : U) (r : Ret U)
    (x : Box * U) :
  InnerNode_remove NDEBUG ins rem n b d = Ok (self, r) ->
  In x (leaves self) \/ In x (leaves (deref self r)) -> In x (leaves n).
Proof.
  unfold InnerNode_remove; intros H Hx; inv_bind.
  destruct (negb (is_null r0)).
  - injection H as <- <-. eapply (doRemove_leaves _ _ _ _ Left); eauto.
  - eapply (doRemove_leaves _ _ _ _ Left); [exact E | ].
    left. eapply (doRemove_leaves _ _ _ _ Right); eauto.
Qed.

End Leaves.

Section NoInvention.

Context {BB : BBoxOps} {U : Type}.
Variable EQ : U -> U -> bool.
Variable NDEBUG : bool.

Lemma Node_leaves (fuel : nat) :
  (forall n b d n' x,
      Node_insert EQ NDEBUG fuel n b d = Ok n' ->
      In x (leaves n') -> In x (leaves n) \/ x = (b, d)) /\
  (forall n b d self r x,
      Node_remove EQ NDEBUG fuel n b d = Ok (self, r) ->
      In x (leaves self) \/ In x (leaves (deref self r)) -> In x (leaves n)).
Proof.
  induction fuel as [ | fuel [IHi IHr]]; [split; intros; discriminate | ].
  split.
  - intros n b d n' x H Hx. destruct n; simpl in H; try discriminate.
    + unfold Leaf_insert, new_InnerNode in H. inv_bind. subst n'.
      simpl in Hx. destruct Hx as [<- | [<- | []]]; [left; left | right]; reflexivity.
    + eapply InnerNode_insert_leaves; eauto.
  - intros n b d self r x H Hx. destruct n; simpl in H; try discriminate.
    + unfold Leaf_remove in H.
      destruct (EQ d m_data); injection H as <- <-; simpl in Hx |- *; tauto.
    + eapply InnerNode_remove_leaves; eauto.
Qed.

(** X19. [insert] brings no foreign data into the tree: the bounds and
    payload of every leaf after [insert(b, d)] are the bounds and payload of
    some leaf before it, or are [b] and [d].  Nothing is said about how often
    a pair occurs: rebalancing can leave a pair in the tree twice. *)
Theorem insert_leaves_from_before (fuel : nat) (t t' : AABBTree U) (b : Box) (d : U)
    (x : Box * U) :
  insert EQ NDEBUG fuel t b d = Ok t' ->
  In x (leaves (m_root t')) ->
  In x (leaves (m_root t)) \/ x = (b, d).
Proof.
  unfold insert. intros H Hx. inv_bind. subst t'.
  destruct (empty t).
  - injection E as <-. simpl in Hx. destruct Hx as [<- | []]. right; reflexivity.
  - inv_bind. subst a. simpl in Hx.
    exact (proj1 (Node_leaves fuel) _ _ _ _ _ E1 Hx).
Qed.

(** X20. [remove] brings no foreign data into the tree: the bounds and
    payload of every leaf after a [remove] are the bounds and payload of some
    leaf before it.  Nothing is said about how often a pair occurs:
    rebalancing can leave a pair in the tree twice. *)
Theorem remove_leaves_from_before (fuel : nat) (t t' : AABBTree U) (b : Box) (d : U)
    (r : bool) (x : Box * U) :
  remove EQ NDEBUG fuel t b d = Ok (t', r) ->
  In x (leaves (m_root t')) ->
  In x (leaves (m_root t)).
Proof.
  unfold remove. intros H Hx.
  destruct (empty t); [injection H as <- _; exact Hx | ].
  inv_bind. destruct (contains a b); [ | injection H as <- _; exact Hx].
  inv_bind. subst t'. simpl in Hx.
  eapply (proj2 (Node_leaves fuel)); [exact E0 | right; exact Hx].
Qed.

End NoInvention.

(** X19 at the fourth insert of [stale_height_ops]: the leaf [2,3], moved by
    the rebalance, was there before. *)
Lemma insert_leaves_from_before_witness :
  insert Nat.eqb false 20 scenario_tree (Iv 4 5) 4 = Ok stale_height_tree /\
  In (Iv 2 3, 2) (leaves (m_root stale_height_tree)) /\
  (In (Iv 2 3, 2) (leaves (m_root scenario_tree)) \/ (Iv 2 3, 2) = (Iv 4 5, 4)).
Proof.
  assert (H : insert Nat.eqb false 20 scenario_tree (Iv 4 5) 4 = Ok stale_height_tree)
    by (vm_compute; reflexivity).
  assert (Hx : In (Iv 2 3, 2) (leaves (m_root stale_height_tree)))
    by (simpl; auto).
  split; [exact H | split; [exact Hx | ]].
  exact (@insert_leaves_from_before IntervalOps nat Nat.eqb false 20 _ _ _ _ _ H Hx).
Defined.

(** X20 at [nine_leaves]: the leaf [15,17], moved by the rebalance, was there
    before. *)
Lemma remove_leaves_from_before_witness :
  remove Nat.eqb true 60 nine_leaves (Iv 17 20) 2 = Ok (unbalanced_by_remove, true) /\
  In (Iv 15 17, 4) (leaves (m_root unbalanced_by_remove)) /\
  In (Iv 15 17, 4) (leaves (m_root nine_leaves)).
Proof.
  assert (H : remove Nat.eqb true 60 nine_leaves (Iv 17 20) 2
              = Ok (unbalanced_by_remove, true))
    by (vm_compute; reflexivity).
  assert (Hx : In (Iv 15 17, 4) (leaves (m_root unbalanced_by_remove)))
    by (simpl; auto 10).
  split; [exact H | split; [exact Hx | ]].
  exact (@remove_leaves_from_before IntervalOps nat Nat.eqb true 60 _ _ _ _ _ _ H Hx).
Defined.
